(** * Simple-Calc: a shallow embedding of [calculator.py]

    The calculator keeps two module-level dictionaries, [calculation_history]
    (day of month -> list of calculation records) and [daily_stats]
    (day of month -> running statistics).  This file embeds the functions of
    [calculator.py] as computations over an explicit world (the two
    dictionaries, the clock, the terminal) and proves the properties of the
    store that the specification states.

    Python floats are IEEE-754 binary64 values; they are modelled by
    [spec_float] with the operations of [SpecFloat] at precision 53 and
    maximal exponent 1024 (round to nearest, ties to even). *)

From Stdlib Require Import ZArith String Ascii List Bool Lia.
From Stdlib Require Import Floats.SpecFloat.
From Stdlib Require Import DecimalString.
From stdpp Require Import base option list strings gmap sorting.

Local Open Scope string_scope.
Local Open Scope Z_scope.
Local Open Scope list_scope.
Local Open Scope stdpp_scope.

(** ** Python floats *)

Module PyFloat.

Definition prec : Z := 53.
Definition emax : Z := 1024.

Definition float : Type := spec_float.

Definition zero : float := S754_zero false.
Definition inf : float := S754_infinity false.      (* float('inf')  *)
Definition neg_inf : float := S754_infinity true.   (* float('-inf') *)
Definition nan : float := S754_nan.

Definition add (x y : float) : float := SFadd prec emax x y.
Definition sub (x y : float) : float := SFsub prec emax x y.
Definition mul (x y : float) : float := SFmul prec emax x y.
(** IEEE division; Python guards it, see [truediv]. *)
Definition div (x y : float) : float := SFdiv prec emax x y.

(** [x < y], [x > y], [x <= y] and [x == y] on floats; every comparison with
    a NaN is false. *)
Definition lt (x y : float) : bool := SFltb x y.
Definition gt (x y : float) : bool :=
  match SFcompare x y with Some Gt => true | _ => false end.
Definition le (x y : float) : bool := SFleb x y.
Definition eq (x y : float) : bool := SFeqb x y.

Definition is_nan (x : float) : bool :=
  match x with S754_nan => true | _ => false end.

(** [float(n)] for an integer [n]: the nearest double, ties to even.
    CPython raises [OverflowError] once [|n| >= 2^1024 - 2^970]; the only
    integer the calculator converts is a day's [count], the length of a list
    held in memory, so that case is out of reach and the conversion is taken
    total (it yields an infinity there). *)
Definition of_int (n : Z) : float := binary_normalize prec emax n 0 false.

(** The builtin [min(a, b)]: the first argument is kept unless the second is
    strictly smaller. *)
Definition py_min (a b : float) : float := if lt b a then b else a.

(** The builtin [max(a, b)]: the first argument is kept unless the second is
    strictly greater. *)
Definition py_max (a b : float) : float := if gt b a then b else a.

End PyFloat.

Abbreviation float := PyFloat.float.

(** ** Exceptions *)

Inductive exn : Type :=
| ValueError (msg : string)
| ZeroDivisionError
| KeyError (key : Z)
| EOFError.

(** ** Data model *)

(** One entry of a day's list in [calculation_history]. *)
Module Calc.
Record t : Type := Make {
  timestamp : string;
  num1 : float;
  num2 : float;
  operation : string;
  result : float
}.
End Calc.

(** One entry of [daily_stats]; [count] is a Python int, the rest are floats. *)
Module Stats.
Record t : Type := Make {
  count : Z;
  sum : float;
  min : float;
  max : float;
  average : float
}.

Definition set_count (v : Z) (s : t) : t :=
  Make v (sum s) (min s) (max s) (average s).
Definition set_sum (v : float) (s : t) : t :=
  Make (count s) v (min s) (max s) (average s).
Definition set_min (v : float) (s : t) : t :=
  Make (count s) (sum s) v (max s) (average s).
Definition set_max (v : float) (s : t) : t :=
  Make (count s) (sum s) (min s) v (average s).
Definition set_average (v : float) (s : t) : t :=
  Make (count s) (sum s) (min s) (max s) v.

(** The dictionary literal of [update_daily_stats]. *)
Definition initial : t :=
  Make 0 PyFloat.zero PyFloat.inf PyFloat.neg_inf PyFloat.zero.
End Stats.

(** [datetime.datetime.now()], to the second. *)
Record datetime : Type := DateTime {
  year : Z; month : Z; day : Z; hour : Z; minute : Z; second : Z
}.

(** ** Terminal output

    A printed line is kept as the pieces of its f-string, so that the decimal
    rendering of floats stays symbolic: [Flt x] stands for [{x}] and [Flt2 x]
    for [{x:.2f}]. *)

Inductive piece : Type :=
| Str (s : string)
| Int (n : Z)
| Flt (x : float)
| Flt2 (x : float).

Inductive event : Type :=
| Print (line : list piece)     (* print(...) *)
| Prompt (s : string).          (* the prompt written by input(...) *)

(** ** The world *)

Record world : Type := World {
  calculation_history : gmap Z (list Calc.t);
  daily_stats : gmap Z Stats.t;
  clock : nat -> datetime;      (* the n-th reading of the system clock *)
  clock_reads : nat;            (* readings taken so far *)
  stdin : list string;          (* lines still to be typed *)
  stdout : list event           (* what was written, oldest first *)
}.

Definition set_calculation_history (h : gmap Z (list Calc.t)) (w : world) : world :=
  World h (daily_stats w) (clock w) (clock_reads w) (stdin w) (stdout w).
Definition set_daily_stats (d : gmap Z Stats.t) (w : world) : world :=
  World (calculation_history w) d (clock w) (clock_reads w) (stdin w) (stdout w).
Definition set_clock_reads (n : nat) (w : world) : world :=
  World (calculation_history w) (daily_stats w) (clock w) n (stdin w) (stdout w).
Definition set_stdin (l : list string) (w : world) : world :=
  World (calculation_history w) (daily_stats w) (clock w) (clock_reads w) l (stdout w).
Definition set_stdout (o : list event) (w : world) : world :=
  World (calculation_history w) (daily_stats w) (clock w) (clock_reads w) (stdin w) o.

(** ** Computations: state plus exceptions

    A raised exception keeps the world as it was at the [raise]: Python does
    not roll back the mutations made before it. *)

Definition M (A : Type) : Type := world -> (exn + A) * world.

#[global] Instance M_ret : MRet M := fun A x w => (inr x, w).
#[global] Instance M_bind : MBind M := fun A B f m w =>
  match m w with
  | (inr x, w') => f x w'
  | (inl e, w') => (inl e, w')
  end.

Definition raise {A : Type} (e : exn) : M A := fun w => (inl e, w).
Definition gets {A : Type} (f : world -> A) : M A := fun w => (inr (f w), w).
Definition modify (f : world -> world) : M unit := fun w => (inr tt, f w).

Definition print (line : list piece) : M unit :=
  modify (fun w => set_stdout (stdout w ++ [Print line]) w).

(** [datetime.datetime.now()] *)
Definition datetime_now : M datetime := fun w =>
  (inr (clock w (clock_reads w)), set_clock_reads (S (clock_reads w)) w).

(** ** Formatting *)

Definition nl : string := String (ascii_of_nat 10) EmptyString.

Fixpoint repeat_string (s : string) (n : nat) : string :=
  match n with
  | O => EmptyString
  | S n' => s +:+ repeat_string s n'
  end.

Definition decimal (n : Z) : string := NilZero.string_of_int (Z.to_int n).

(** Zero padding to [width] digits, as [%Y], [%m], [%d], [%H], [%M], [%S] do. *)
Definition zero_pad (width : nat) (n : Z) : string :=
  let s := decimal n in
  repeat_string "0" (width - String.length s) +:+ s.

(** [strftime("%Y-%m-%d %H:%M:%S")] *)
Definition strftime (t : datetime) : string :=
  zero_pad 4 (year t) +:+ "-" +:+ zero_pad 2 (month t) +:+ "-" +:+ zero_pad 2 (day t)
  +:+ " " +:+ zero_pad 2 (hour t) +:+ ":" +:+ zero_pad 2 (minute t) +:+ ":"
  +:+ zero_pad 2 (second t).

(** ** Python operators used by the calculator *)

(** [x / y] on two floats. *)
Definition truediv (x y : float) : M float :=
  if PyFloat.eq y PyFloat.zero then raise ZeroDivisionError
  else mret (PyFloat.div x y).

(** [x / n] for a float [x] and an int [n]: [n] is converted first. *)
Definition truediv_int (x : float) (n : Z) : M float :=
  truediv x (PyFloat.of_int n).

(** ** The store *)

(** [daily_stats[day]] *)
Definition stats_getitem (day : Z) : M Stats.t := fun w =>
  match daily_stats w !! day with
  | Some s => (inr s, w)
  | None => (inl (KeyError day), w)
  end.

(** [stats[key] = v] for [stats = daily_stats[day]]: the dictionary stored
    under [day] is itself updated, [stats] being a reference to it. *)
Definition stats_update (day : Z) (f : Stats.t -> Stats.t) : M unit :=
  s ← stats_getitem day;
  modify (fun w => set_daily_stats (<[day := f s]> (daily_stats w)) w).

Definition update_daily_stats (day : Z) (result : float) : M unit :=
  present ← gets (fun w => bool_decide (is_Some (daily_stats w !! day)));
  (if negb present
   then modify (fun w => set_daily_stats (<[day := Stats.initial]> (daily_stats w)) w)
   else mret tt);;
  (* stats['count'] += 1 *)
  stats ← stats_getitem day;
  stats_update day (Stats.set_count (Stats.count stats + 1));;
  (* stats['sum'] += result *)
  stats ← stats_getitem day;
  stats_update day (Stats.set_sum (PyFloat.add (Stats.sum stats) result));;
  (* stats['min'] = min(stats['min'], result) *)
  stats ← stats_getitem day;
  stats_update day (Stats.set_min (PyFloat.py_min (Stats.min stats) result));;
  (* stats['max'] = max(stats['max'], result) *)
  stats ← stats_getitem day;
  stats_update day (Stats.set_max (PyFloat.py_max (Stats.max stats) result));;
  (* stats['average'] = stats['sum'] / stats['count'] *)
  stats ← stats_getitem day;
  q ← truediv_int (Stats.sum stats) (Stats.count stats);
  stats_update day (Stats.set_average q).

(** [calculation_history[day].append(record)] *)
Definition history_append (day : Z) (record : Calc.t) : M unit := fun w =>
  match calculation_history w !! day with
  | Some l => (inr tt, set_calculation_history (<[day := l ++ [record]]> (calculation_history w)) w)
  | None => (inl (KeyError day), w)
  end.

Definition store_calculation (num1 num2 : float) (operation : string)
    (result : float) : M unit :=
  now ← datetime_now;
  let current_day := day now in
  now' ← datetime_now;
  let calculation_record := Calc.Make (strftime now') num1 num2 operation result in
  present ← gets (fun w => bool_decide (is_Some (calculation_history w !! current_day)));
  (if negb present
   then modify (fun w => set_calculation_history (<[current_day := []]> (calculation_history w)) w)
   else mret tt);;
  history_append current_day calculation_record;;
  update_daily_stats current_day result.

(** ** Control helpers *)

(** [for x in l: body(x)] *)
Fixpoint for_each {A : Type} (l : list A) (body : A -> M unit) : M unit :=
  match l with
  | [] => mret tt
  | x :: l' => body x;; for_each l' body
  end.

(** [enumerate(l, start)] *)
Fixpoint enumerate {A : Type} (l : list A) (start : Z) : list (Z * A) :=
  match l with
  | [] => []
  | x :: l' => (start, x) :: enumerate l' (start + 1)
  end.

(** [try: body  except ValueError: handler] *)
Definition except_ValueError {A : Type} (body handler : M A) : M A := fun w =>
  match body w with
  | (inl (ValueError _), w') => handler w'
  | r => r
  end.

(** [sorted(d.keys())] on integer keys. *)
Definition sorted_keys {V : Type} (d : gmap Z V) : list Z :=
  merge_sort Z.le (map fst (map_to_list d)).

(** [input(prompt)]: the prompt is written, then one line is read; at the end
    of the input Python raises [EOFError]. *)
Definition input (prompt : string) : M string := fun w =>
  let w' := set_stdout (stdout w ++ [Prompt prompt]) w in
  match stdin w' with
  | [] => (inl EOFError, w')
  | s :: rest => (inr s, set_stdin rest w')
  end.

(** [calculation_history[day]] *)
Definition history_getitem (day : Z) : M (list Calc.t) := fun w =>
  match calculation_history w !! day with
  | Some l => (inr l, w)
  | None => (inl (KeyError day), w)
  end.

(** ** The evaluator and the validation *)

Definition validate_inputs (num1 num2 : float) (operation : string) : M bool :=
  if String.eqb operation "/" && PyFloat.eq num2 PyFloat.zero
  then print [Str "Error: Division by zero is not allowed!"];; mret false
  else mret true.

Definition execute_operation (num1 num2 : float) (operation : string) : M float :=
  if String.eqb operation "+" then mret (PyFloat.add num1 num2)
  else if String.eqb operation "-" then mret (PyFloat.sub num1 num2)
  else if String.eqb operation "*" then mret (PyFloat.mul num1 num2)
  else if String.eqb operation "/" then truediv num1 num2
  else raise (ValueError ("Unknown operation: " +:+ operation)).

(** ** Display *)

Definition display_result (num1 num2 : float) (operation : string)
    (result : float) : M unit :=
  print [Str (nl +:+ repeat_string "=" 40)];;
  print [Str "CALCULATION RESULT"];;
  print [Str (repeat_string "=" 40)];;
  print [Flt num1; Str " "; Str operation; Str " "; Flt num2; Str " = "; Flt result];;
  print [Str (repeat_string "=" 40)].

(** The five statistics lines shared by [display_daily_history] and the
    statistics view of [main]. *)
Definition print_stats_lines (stats : Stats.t) : M unit :=
  print [Str "  Total calculations: "; Int (Stats.count stats)];;
  print [Str "  Sum of results: "; Flt2 (Stats.sum stats)];;
  print [Str "  Average result: "; Flt2 (Stats.average stats)];;
  print [Str "  Min result: "; Flt2 (Stats.min stats)];;
  print [Str "  Max result: "; Flt2 (Stats.max stats)].

(** The pieces of [{timestamp}: {num1} {operation} {num2} = {result}]. *)
Definition calc_pieces (calc : Calc.t) : list piece :=
  [Str (Calc.timestamp calc); Str ": "; Flt (Calc.num1 calc); Str " ";
   Str (Calc.operation calc); Str " "; Flt (Calc.num2 calc); Str " = ";
   Flt (Calc.result calc)].

Definition display_daily_history (day : option Z) : M unit :=
  match day with
  | Some day =>
      present ← gets (fun w => bool_decide (is_Some (calculation_history w !! day)));
      if present : bool then
        print [Str (nl +:+ "=== Calculations for Day "); Int day; Str " ==="];;
        calcs ← history_getitem day;
        for_each (enumerate calcs 1) (fun '(i, calc) =>
          print ([Int i; Str ". "] ++ calc_pieces calc));;
        has_stats ← gets (fun w => bool_decide (is_Some (daily_stats w !! day)));
        if has_stats : bool then
          stats ← stats_getitem day;
          print [Str (nl +:+ "Day "); Int day; Str " Statistics:"];;
          print_stats_lines stats
        else mret tt
      else
        print [Str "No calculations found for day "; Int day]
  | None =>
      nonempty ← gets (fun w => bool_decide (calculation_history w ≠ ∅));
      if nonempty : bool then
        print [Str (nl +:+ "=== All Calculation History ===")];;
        days ← gets (fun w => sorted_keys (calculation_history w));
        for_each days (fun day =>
          calcs ← history_getitem day;
          print [Str (nl +:+ "Day "); Int day; Str " (";
                 Int (Z.of_nat (length calcs)); Str " calculations):"];;
          for_each calcs (fun calc => print (Str "  " :: calc_pieces calc)))
      else
        print [Str "No calculation history available."]
  end.

(** The statistics view, menu choice 5 of [main]. *)
Definition display_all_statistics : M unit :=
  nonempty ← gets (fun w => bool_decide (daily_stats w ≠ ∅));
  if nonempty : bool then
    print [Str (nl +:+ "=== Daily Statistics ===")];;
    days ← gets (fun w => sorted_keys (daily_stats w));
    for_each days (fun day =>
      stats ← stats_getitem day;
      print [Str (nl +:+ "Day "); Int day; Str ":"];;
      print_stats_lines stats)
  else
    print [Str "No statistics available."].

(** The days announced by the header lines ["\nDay d ..."] of an output. *)
Definition day_header (e : event) : option Z :=
  match e with
  | Print (Str s :: Int d :: _) => if String.eqb s (nl +:+ "Day ") then Some d else None
  | _ => None
  end.

Definition days_shown (out : list event) : list Z := omap day_header out.

(** ** The interactive shell

    [float(s)], [int(s)] and [s.strip()] are Python builtins; their parsing
    rules play no role here and they are taken as parameters ([None] stands
    for the [ValueError] of a string that does not parse). *)

Inductive control : Type := Continue | Break.

Section Shell.

Variable float_of_string : string -> option float.
Variable int_of_string : string -> option Z.
Variable strip : string -> string.

(** [while True: try: x = float(input(prompt)); break
                 except ValueError: print(...)].
    Every turn reads one line, so [fuel] greater than the number of lines
    left on [stdin] is never used up: [input] raises [EOFError] first. *)
Fixpoint prompt_number (prompt : string) (fuel : nat) : M float :=
  match fuel with
  | O => raise EOFError
  | S fuel' =>
      s ← input prompt;
      match float_of_string s with
      | Some x => mret x
      | None =>
          print [Str "Error: Please enter a valid number (e.g., 5, 3.14, -2)"];;
          prompt_number prompt fuel'
      end
  end.

Definition operation_map_get (operation_input : string) : string :=
  if String.eqb operation_input "1" then "+"
  else if String.eqb operation_input "2" then "-"
  else if String.eqb operation_input "3" then "*"
  else if String.eqb operation_input "4" then "/"
  else operation_input.

Definition is_operator (operation : string) : bool :=
  String.eqb operation "+" || String.eqb operation "-"
  || String.eqb operation "*" || String.eqb operation "/".

Fixpoint prompt_operation (fuel : nat) : M string :=
  match fuel with
  | O => raise EOFError
  | S fuel' =>
      s ← input (nl +:+ "Choose an operation (1-4 or +, -, *, /): ");
      let operation := operation_map_get (strip s) in
      if is_operator operation then mret operation
      else
        print [Str "Error: Please choose a valid operation (1-4 or +, -, *, /)"];;
        prompt_operation fuel'
  end.

Definition lines_left : M nat := gets (fun w => S (length (stdin w))).

Definition get_user_inputs : M (float * float * string) :=
  print [Str "=== Enhanced Calculator with Data Storage ==="];;
  print [Str "Please enter two numbers and choose an operation."];;
  print [];;
  fuel ← lines_left;
  num1 ← prompt_number "Enter the first number: " fuel;
  fuel ← lines_left;
  num2 ← prompt_number "Enter the second number: " fuel;
  print [Str (nl +:+ "Available operations:")];;
  print [Str "1. Addition (+)"];;
  print [Str "2. Subtraction (-)"];;
  print [Str "3. Multiplication (*)"];;
  print [Str "4. Division (/)"];;
  fuel ← lines_left;
  operation ← prompt_operation fuel;
  mret (num1, num2, operation).

Definition get_menu_choice : M string :=
  print [Str (nl +:+ repeat_string "=" 50)];;
  print [Str "CALCULATOR MENU"];;
  print [Str (repeat_string "=" 50)];;
  print [Str "1. Perform calculation"];;
  print [Str "2. View today's calculations"];;
  print [Str "3. View calculations for specific day"];;
  print [Str "4. View all calculation history"];;
  print [Str "5. View daily statistics"];;
  print [Str "6. Exit"];;
  print [Str (repeat_string "=" 50)];;
  s ← input "Choose an option (1-6): ";
  mret (strip s).

(** Menu choice 1 once the inputs are read: validate, evaluate, display,
    store.  A rejected input [continue]s the loop. *)
Definition calculate (num1 num2 : float) (operation : string) : M control :=
  valid ← validate_inputs num1 num2 operation;
  if negb valid then mret Continue
  else
    result ← execute_operation num1 num2 operation;
    display_result num1 num2 operation result;;
    store_calculation num1 num2 operation result;;
    mret Continue.

(** Menu choice 3.  The text of the [ValueError] of [int] is never shown: the
    handler prints its own line. *)
Definition view_specific_day : M unit :=
  except_ValueError
    (s ← input "Enter day of month (1-31): ";
     match int_of_string s with
     | None => raise (ValueError "invalid literal for int()")
     | Some day =>
         if (1 <=? day) && (day <=? 31)
         then display_daily_history (Some day)
         else print [Str "Error: Day must be between 1 and 31"]
     end)
    (print [Str "Error: Please enter a valid day number"]).

(** What one turn of the [while True] loop of [main] does after the menu
    choice is read. *)
Definition dispatch (choice : string) : M control :=
  if String.eqb choice "1" then
    '(num1, num2, operation) ← get_user_inputs;
    calculate num1 num2 operation
  else if String.eqb choice "2" then
    now ← datetime_now;
    display_daily_history (Some (day now));;
    mret Continue
  else if String.eqb choice "3" then
    view_specific_day;; mret Continue
  else if String.eqb choice "4" then
    display_daily_history None;; mret Continue
  else if String.eqb choice "5" then
    display_all_statistics;; mret Continue
  else if String.eqb choice "6" then
    print [Str "Thank you for using the Enhanced Calculator!"];; mret Break
  else
    print [Str "Invalid choice. Please select 1-6."];; mret Continue.

(** One turn of the loop of [main].  An exception leaves the turn as [inl]:
    in [main] it ends the loop, where the handler prints it.  The interrupt
    of the user is a signal from outside the program and is not part of the
    input modelled here. *)
Definition main_iteration : M control :=
  choice ← get_menu_choice;
  dispatch choice.

End Shell.

(** ** Spec-side notions used to state the properties *)

(** A world whose store is empty, as at process start. *)
Definition initial_store (w : world) : Prop :=
  calculation_history w = ∅ /\ daily_stats w = ∅.

(** The states of the store: those reached from an empty store by store
    operations that returned.  Reading the clock, reading input and printing
    do not count as changes of the store. *)
Inductive reachable : world -> Prop :=
| reachable_init (w : world) :
    initial_store w -> reachable w
| reachable_store (w w' : world) (num1 num2 : float) (operation : string) (result : float) :
    reachable w ->
    store_calculation num1 num2 operation result w = (inr tt, w') ->
    reachable w'
| reachable_io (w w' : world) :
    reachable w ->
    calculation_history w' = calculation_history w ->
    daily_stats w' = daily_stats w ->
    reachable w'.

(** The records stored for a day, none when the day has no key. *)
Definition records_of (w : world) (d : Z) : list Calc.t :=
  default [] (calculation_history w !! d).

Definition results_of (w : world) (d : Z) : list float :=
  map Calc.result (records_of w d).

(** The floating-point sum [0.0 + r1 + ... + rN], added left to right. *)
Definition float_sum (rs : list float) : float :=
  fold_left PyFloat.add rs PyFloat.zero.

Definition not_nan (x : float) : Prop := PyFloat.is_nan x = false.

(** [m] is a least (greatest) element of [rs] for the float order. *)
Definition is_minimum (m : float) (rs : list float) : Prop :=
  In m rs /\ forall r, In r rs -> PyFloat.le m r = true.
Definition is_maximum (m : float) (rs : list float) : Prop :=
  In m rs /\ forall r, In r rs -> PyFloat.le r m = true.

(** The statistics entry of day [d] describes the results [rs]. *)
Definition count_sum_average_of (s : Stats.t) (rs : list float) : Prop :=
  Stats.count s = Z.of_nat (length rs) /\
  Stats.sum s = float_sum rs /\
  Stats.average s = PyFloat.div (float_sum rs) (PyFloat.of_int (Z.of_nat (length rs))).

(** The entry a day starts from: its own, or the fresh one that
    [update_daily_stats] creates for a day without statistics. *)
Definition stats_before (w : world) (d : Z) : Stats.t :=
  default Stats.initial (daily_stats w !! d).

(** The entry after one more result, field by field as [update_daily_stats]
    assigns them. *)
Definition updated_stats (s : Stats.t) (r : float) : Stats.t :=
  Stats.Make (Stats.count s + 1)
             (PyFloat.add (Stats.sum s) r)
             (PyFloat.py_min (Stats.min s) r)
             (PyFloat.py_max (Stats.max s) r)
             (PyFloat.div (PyFloat.add (Stats.sum s) r) (PyFloat.of_int (Stats.count s + 1))).

(** The entry when the fifth assignment raises: everything but the average
    has been assigned. *)
Definition half_updated_stats (s : Stats.t) (r : float) : Stats.t :=
  Stats.Make (Stats.count s + 1)
             (PyFloat.add (Stats.sum s) r)
             (PyFloat.py_min (Stats.min s) r)
             (PyFloat.py_max (Stats.max s) r)
             (Stats.average s).

(** The entry of a day whose results are [rs], oldest first. *)
Definition stats_of (rs : list float) : Stats.t :=
  fold_left updated_stats rs Stats.initial.

(** The day and the record that the next [store_calculation] will use: it
    reads the clock twice, first for the day, then for the timestamp. *)
Definition current_day (w : world) : Z := day (clock w (clock_reads w)).

Definition new_record (w : world) (num1 num2 : float) (operation : string)
    (result : float) : Calc.t :=
  Calc.Make (strftime (clock w (S (clock_reads w)))) num1 num2 operation result.

(** The results that are numbers. *)
Definition non_nan (rs : list float) : list float :=
  List.filter (fun x => negb (PyFloat.is_nan x)) rs.

(** The store invariant: the two dictionaries have the same days, no day has
    an empty list, and each entry is the fold of the update over the day's
    results. *)
Definition store_inv (w : world) : Prop :=
  forall d : Z,
    match calculation_history w !! d, daily_stats w !! d with
    | None, None => True
    | Some l, Some s => l <> [] /\ s = stats_of (map Calc.result l)
    | _, _ => False
    end.

(** The statistics entry [s] describes the results [rs] the way the
    specification words it: count, sum, average, least and greatest result. *)
Definition stats_describe (s : Stats.t) (rs : list float) : Prop :=
  count_sum_average_of s rs /\
  is_minimum (Stats.min s) rs /\ is_maximum (Stats.max s) rs.

(** The same with the least and greatest taken among the results that are
    numbers; a first result that is a number is both. *)
Definition stats_describe_numbers (s : Stats.t) (rs : list float) : Prop :=
  count_sum_average_of s rs /\
  (non_nan rs <> [] ->
   is_minimum (Stats.min s) (non_nan rs) /\ is_maximum (Stats.max s) (non_nan rs)) /\
  (forall r, rs = [r] -> not_nan r -> Stats.min s = r /\ Stats.max s = r).

(** Average and bounds of every entry, over all recorded results. *)
Definition stats_bound_all_results (w : world) : Prop :=
  forall d s, daily_stats w !! d = Some s -> 0 < Stats.count s ->
    Stats.average s = PyFloat.div (Stats.sum s) (PyFloat.of_int (Stats.count s)) /\
    forall r, In r (results_of w d) ->
      PyFloat.le (Stats.min s) r = true /\ PyFloat.le r (Stats.max s) = true.

(** The same over the recorded results that are numbers. *)
Definition stats_bound_number_results (w : world) : Prop :=
  forall d s, daily_stats w !! d = Some s -> 0 < Stats.count s ->
    Stats.average s = PyFloat.div (Stats.sum s) (PyFloat.of_int (Stats.count s)) /\
    forall r, In r (results_of w d) -> not_nan r ->
      PyFloat.le (Stats.min s) r = true /\ PyFloat.le r (Stats.max s) = true.

(** A world with an empty store, a clock stuck at noon of the given day and
    nothing to read; used for concrete runs. *)
Definition demo_world (d : Z) : world :=
  World ∅ ∅ (fun _ => DateTime 2024 3 d 12 0 0) 0 [] [].

(** The two dictionaries of [w'] are those of [w]. *)
Definition same_store (w w' : world) : Prop :=
  calculation_history w' = calculation_history w /\ daily_stats w' = daily_stats w.

(** A computation that never changes the store, whether it returns or
    raises. *)
Definition read_only {A : Type} (m : M A) : Prop :=
  forall w, same_store w (snd (m w)).

(** The evaluator raises. *)
Definition evaluator_raises (num1 num2 : float) (operation : string) (w : world) : Prop :=
  exists e, fst (execute_operation num1 num2 operation w) = inl e.

(** Builtins and an input for concrete runs: a [float] and an [int] that know
    a few numerals, a [strip] for lines typed without blanks. *)
Definition demo_float (s : string) : option float :=
  if String.eqb s "10" then Some (PyFloat.of_int 10)
  else if String.eqb s "2" then Some (PyFloat.of_int 2)
  else if String.eqb s "0" then Some PyFloat.zero
  else None.

Definition demo_int (s : string) : option Z :=
  if String.eqb s "5" then Some 5
  else if String.eqb s "7" then Some 7
  else None.

Definition demo_strip (s : string) : string := s.

(** [m] returns after writing exactly [out] and changing nothing else. *)
Definition emits (m : M unit) (w : world) (out : list event) : Prop :=
  m w = (inr tt, set_stdout (stdout w ++ out) w).

(** The day has at least one record. *)
Definition has_records (w : world) (d : Z) : Prop := records_of w d <> [].

(** What the history view writes for one day, and the statistics view. *)
Definition history_block (w : world) (d : Z) : list event :=
  Print [Str (nl +:+ "Day "); Int d; Str " (";
         Int (Z.of_nat (length (records_of w d))); Str " calculations):"]
  :: map (fun calc => Print (Str "  " :: calc_pieces calc)) (records_of w d).

Definition stats_lines (stats : Stats.t) : list event :=
  [Print [Str "  Total calculations: "; Int (Stats.count stats)];
   Print [Str "  Sum of results: "; Flt2 (Stats.sum stats)];
   Print [Str "  Average result: "; Flt2 (Stats.average stats)];
   Print [Str "  Min result: "; Flt2 (Stats.min stats)];
   Print [Str "  Max result: "; Flt2 (Stats.max stats)]].

Definition stats_block (w : world) (d : Z) : list event :=
  Print [Str (nl +:+ "Day "); Int d; Str ":"] :: stats_lines (stats_before w d).

(** The demo world after [nan + 1.0] has been stored on day 5. *)
Definition nan_world : world :=
  snd (store_calculation PyFloat.nan (PyFloat.of_int 1) "+" PyFloat.nan (demo_world 5)).

(** The demo world after [5.0 + 3.0 = 8.0] has been stored on day 5. *)
Definition eight_world : world :=
  snd (store_calculation (PyFloat.of_int 5) (PyFloat.of_int 3) "+" (PyFloat.of_int 8)
         (demo_world 5)).

(** The world [eight_world] with the given lines waiting on the terminal. *)
Definition typing_world (lines : list string) : world := set_stdin lines eight_world.

(** ** The loop of [main]

    [str(e)], the text of an exception, is a builtin and a parameter like the
    parsers.  The handler of [KeyboardInterrupt] is left out with the
    interrupt itself. *)

Section MainLoop.

Variable float_of_string : string -> option float.
Variable int_of_string : string -> option Z.
Variable strip : string -> string.
Variable exn_text : exn -> string.

(** [while True: ...].  A turn that comes back has read the menu choice, so
    [fuel] greater than the number of lines left on [stdin] is never used
    up. *)
Fixpoint main_loop (fuel : nat) : M unit :=
  match fuel with
  | O => raise EOFError
  | S fuel' =>
      c ← main_iteration float_of_string int_of_string strip;
      match c with
      | Break => mret tt
      | Continue => main_loop fuel'
      end
  end.

(** [try: while True: ...  except Exception as e: print(...)] *)
Definition main : M unit := fun w =>
  match (fuel ← lines_left; main_loop fuel) w with
  | (inl e, w') =>
      print [Str (nl +:+ "An unexpected error occurred: "); Str (exn_text e)] w'
  | r => r
  end.

End MainLoop.

(** ** Further notions for the properties of the shell *)

(** Zeros and finite numbers: what a decimal numeral typed by the user
    denotes, as opposed to [inf] and [nan]. *)
Definition is_finite (x : float) : bool :=
  match x with
  | S754_zero _ | S754_finite _ _ _ => true
  | _ => false
  end.


(** The lines of the by-day view for the records [l], numbered from [start]. *)
Definition numbered_lines (l : list Calc.t) (start : Z) : list event :=
  map (fun ic => Print ([Int (fst ic); Str ". "] ++ calc_pieces (snd ic))) (enumerate l start).

(** What [display_daily_history(day)] writes. *)
Definition day_view (w : world) (d : Z) : list event :=
  match calculation_history w !! d with
  | Some l =>
      Print [Str (nl +:+ "=== Calculations for Day "); Int d; Str " ==="]
      :: numbered_lines l 1
      ++ match daily_stats w !! d with
         | Some s => Print [Str (nl +:+ "Day "); Int d; Str " Statistics:"] :: stats_lines s
         | None => []
         end
  | None => [Print [Str "No calculations found for day "; Int d]]
  end.

(** What the program did between [w] and [w']: it read lines from the front
    of the input, appended to the output, read the clock, and appended
    records to the lists of the history. *)
Definition input_consumed (w w' : world) : Prop := suffix (stdin w') (stdin w).
Definition output_appended (w w' : world) : Prop := prefix (stdout w) (stdout w').
Definition history_extended (w w' : world) : Prop :=
  forall d, prefix (records_of w d) (records_of w' d).

(** The lines typed for one number or for the operation: rejected lines, then
    an accepted one. *)
Definition rejected_numbers (float_of_string : string -> option float)
    (lines : list string) : Prop :=
  Forall (fun s => float_of_string s = None) lines.

Definition rejected_operations (strip : string -> string) (lines : list string) : Prop :=
  Forall (fun s => is_operator (operation_map_get (strip s)) = false) lines.

(** What the terminal shows for a rejected line: the prompt, then the error. *)
Definition retry (prompt error : string) (lines : list string) : list event :=
  flat_map (fun _ => [Prompt prompt; Print [Str error]]) lines.

(** The texts of [get_user_inputs]. *)
Definition number_error : string := "Error: Please enter a valid number (e.g., 5, 3.14, -2)".
Definition operation_prompt : string := nl +:+ "Choose an operation (1-4 or +, -, *, /): ".
Definition operation_error : string :=
  "Error: Please choose a valid operation (1-4 or +, -, *, /)".

Definition inputs_banner : list event :=
  [Print [Str "=== Enhanced Calculator with Data Storage ==="];
   Print [Str "Please enter two numbers and choose an operation."];
   Print []].

Definition operations_menu : list event :=
  [Print [Str (nl +:+ "Available operations:")];
   Print [Str "1. Addition (+)"];
   Print [Str "2. Subtraction (-)"];
   Print [Str "3. Multiplication (*)"];
   Print [Str "4. Division (/)"]].

(** What the terminal shows while the three inputs are typed, with the lines
    [bad1], [bad2] and [bad3] rejected on the way. *)
Definition inputs_transcript (bad1 bad2 bad3 : list string) : list event :=
  inputs_banner
  ++ retry "Enter the first number: " number_error bad1
  ++ [Prompt "Enter the first number: "]
  ++ retry "Enter the second number: " number_error bad2
  ++ [Prompt "Enter the second number: "]
  ++ operations_menu
  ++ retry operation_prompt operation_error bad3
  ++ [Prompt operation_prompt].

(** What [display_result] writes. *)
Definition result_lines (num1 num2 : float) (operation : string) (result : float)
    : list event :=
  [Print [Str (nl +:+ repeat_string "=" 40)];
   Print [Str "CALCULATION RESULT"];
   Print [Str (repeat_string "=" 40)];
   Print [Flt num1; Str " "; Str operation; Str " "; Flt num2; Str " = "; Flt result];
   Print [Str (repeat_string "=" 40)]].

(** The last line of a session: the farewell of choice 6, or the report of
    the exception that ended the loop. *)
Definition farewell : event := Print [Str "Thank you for using the Enhanced Calculator!"].

Definition error_report (text : string) : event :=
  Print [Str (nl +:+ "An unexpected error occurred: "); Str text].

(** [m] never asks to leave the loop. *)
Definition never_breaks (m : M control) : Prop :=
  forall w w', m w <> (inr Break, w').

(** The inputs that the validation lets through to the evaluator. *)
Definition passes_validation (num2 : float) (operation : string) : bool :=
  negb (String.eqb operation "/" && PyFloat.eq num2 PyFloat.zero).

(** The lines accepted at the prompt for the operation, once stripped. *)
Definition accepted_operations : list string := ["1"; "2"; "3"; "4"; "+"; "-"; "*"; "/"].

(** What [get_menu_choice] writes before it reads the choice. *)
Definition menu_lines : list event :=
  [Print [Str (nl +:+ repeat_string "=" 50)];
   Print [Str "CALCULATOR MENU"];
   Print [Str (repeat_string "=" 50)];
   Print [Str "1. Perform calculation"];
   Print [Str "2. View today's calculations"];
   Print [Str "3. View calculations for specific day"];
   Print [Str "4. View all calculation history"];
   Print [Str "5. View daily statistics"];
   Print [Str "6. Exit"];
   Print [Str (repeat_string "=" 50)];
   Prompt "Choose an option (1-6): "].

(** What choice 3 writes after its prompt, for the line [s] typed as the
    day. *)
Definition specific_day_answer (int_of_string : string -> option Z) (w : world)
    (s : string) : list event :=
  match int_of_string s with
  | None => [Print [Str "Error: Please enter a valid day number"]]
  | Some d =>
      if (1 <=? d) && (d <=? 31) then day_view w d
      else [Print [Str "Error: Day must be between 1 and 31"]]
  end.

(** The integers that [float] converts: from this bound on (in absolute
    value) CPython raises [OverflowError] instead. *)
Definition float_int_limit : Z := 2 ^ 1024 - 2 ^ 970.


(** Every run of [m] relates the world it starts from to the one it ends in,
    whether it returns or raises. *)
Definition keeps (R : world -> world -> Prop) {A : Type} (m : M A) : Prop :=
  forall w, R w (snd (m w)).

(** * Properties *)

(** ** The float order *)

Ltac float_order :=
  repeat match goal with
  | |- context [Z.compare ?a ?b] => destruct (Z.compare_spec a b)
  | |- context [PosDef.Pos.compare_cont Eq ?a ?b] =>
      change (PosDef.Pos.compare_cont Eq a b) with (Pos.compare a b);
      destruct (Pos.compare_spec a b)
  end;
  cbn [CompOpp]; intros; subst; try reflexivity; try discriminate; try lia.

Lemma le_trans (x y z : float) :
  PyFloat.le x y = true -> PyFloat.le y z = true -> PyFloat.le x z = true.
Proof.
  unfold PyFloat.le, SFleb.
  destruct x as [sx|sx| |sx mx ex], y as [sy|sy| |sy my ey], z as [sz|sz| |sz mz ez];
    simpl; try discriminate; try reflexivity;
    repeat match goal with s : bool |- _ => destruct s end;
    simpl; try discriminate; try reflexivity;
    float_order.
Qed.

Lemma le_refl (x : float) : not_nan x -> PyFloat.le x x = true.
Proof.
  unfold not_nan, PyFloat.le, SFleb.
  destruct x as [s|s| |s m e]; simpl; try discriminate; try reflexivity;
    destruct s; try reflexivity; float_order.
Qed.

Lemma lt_le (x y : float) : PyFloat.lt x y = true -> PyFloat.le x y = true.
Proof.
  unfold PyFloat.lt, PyFloat.le, SFltb, SFleb.
  destruct (SFcompare x y) as [[]|]; congruence.
Qed.

Lemma gt_le (x y : float) : PyFloat.gt x y = true -> PyFloat.le y x = true.
Proof.
  unfold PyFloat.gt, PyFloat.le, SFleb.
  destruct x as [sx|sx| |sx mx ex], y as [sy|sy| |sy my ey];
    simpl; try discriminate; try reflexivity;
    repeat match goal with s : bool |- _ => destruct s end;
    simpl; try discriminate; try reflexivity;
    float_order.
Qed.

Lemma not_lt_le (x y : float) :
  not_nan x -> not_nan y -> PyFloat.lt x y = false -> PyFloat.le y x = true.
Proof.
  unfold not_nan, PyFloat.lt, PyFloat.le, SFltb, SFleb.
  destruct x as [sx|sx| |sx mx ex], y as [sy|sy| |sy my ey];
    simpl; try discriminate; try reflexivity;
    repeat match goal with s : bool |- _ => destruct s end;
    simpl; try discriminate; try reflexivity;
    float_order.
Qed.

Lemma not_gt_le (x y : float) :
  not_nan x -> not_nan y -> PyFloat.gt x y = false -> PyFloat.le x y = true.
Proof.
  unfold not_nan, PyFloat.gt, PyFloat.le, SFleb.
  destruct x as [sx|sx| |sx mx ex], y as [sy|sy| |sy my ey];
    simpl; try discriminate; try reflexivity;
    repeat match goal with s : bool |- _ => destruct s end;
    simpl; try discriminate; try reflexivity;
    float_order.
Qed.

(** ** Converting a non-zero integer never gives a zero

    [x / count] raises [ZeroDivisionError] when [float(count)] compares equal
    to zero; this happens for [count = 0] only.  The argument follows the
    number of binary digits through the rounding of [binary_normalize]. *)

Abbreviation digits := Zdigits2.

Lemma digits_pos_succ (p : positive) :
  (digits2_pos p <= digits2_pos (Pos.succ p))%positive.
Proof. induction p; simpl; lia. Qed.

Lemma digits_succ (m : Z) : 0 <= m -> digits m <= digits (m + 1).
Proof.
  destruct m as [|p|p]; simpl; try lia.
  intros _. rewrite Pos.add_1_r. pose proof (digits_pos_succ p). lia.
Qed.

Lemma digits_positive (m : Z) : 0 < m -> 1 <= digits m.
Proof. destruct m; simpl; lia. Qed.

Lemma digits_zero (m : Z) : digits m = 0 -> m = 0.
Proof. destruct m; simpl; lia. Qed.

Lemma shr_1_digits (mrs : shr_record) :
  0 <= shr_m mrs ->
  0 <= shr_m (shr_1 mrs) /\ digits (shr_m (shr_1 mrs)) = Z.max 0 (digits (shr_m mrs) - 1).
Proof.
  destruct mrs as [m r s]. destruct m as [|[p|p|]|p]; simpl; lia.
Qed.

Lemma iter_pos_nat {A : Type} (f : A -> A) (p : positive) (x : A) :
  SpecFloat.iter_pos f p x = Nat.iter (Pos.to_nat p) f x.
Proof.
  revert x. induction p as [p IH|p IH|]; intros x; cbn [SpecFloat.iter_pos].
  - rewrite !IH, Pos2Nat.inj_xI, <- Nat.iter_add, <- Nat.iter_succ_r.
    f_equal. lia.
  - rewrite !IH, Pos2Nat.inj_xO, <- Nat.iter_add. f_equal. lia.
  - reflexivity.
Qed.

Lemma shr_iter_digits (k : nat) (mrs : shr_record) :
  0 <= shr_m mrs ->
  0 <= shr_m (Nat.iter k shr_1 mrs) /\
  digits (shr_m (Nat.iter k shr_1 mrs)) = Z.max 0 (digits (shr_m mrs) - Z.of_nat k).
Proof.
  intros Hm. induction k as [|k [IH0 IH]].
  - simpl. split; [assumption|]. destruct (shr_m mrs); simpl in *; lia.
  - rewrite Nat.iter_succ. destruct (shr_1_digits _ IH0) as [H0 H1].
    split; [assumption|]. rewrite H1, IH. lia.
Qed.

Lemma shr_record_of_loc_m (m : Z) (l : location) : shr_m (shr_record_of_loc m l) = m.
Proof. destruct l as [|[]]; reflexivity. Qed.

(** One rounding shift keeps a positive mantissa positive, as long as the
    number is above the subnormal range. *)
Lemma shr_fexp_positive (m e : Z) (l : location) :
  0 < m ->
  emin PyFloat.prec PyFloat.emax <= digits m + e - PyFloat.prec ->
  let mrs := fst (shr_fexp PyFloat.prec PyFloat.emax m e l) in
  let e' := snd (shr_fexp PyFloat.prec PyFloat.emax m e l) in
  0 < shr_m mrs /\
  emin PyFloat.prec PyFloat.emax <= digits (shr_m mrs) + e' - PyFloat.prec.
Proof.
  intros Hm He. unfold shr_fexp, fexp.
  rewrite Z.max_l by lia.
  pose proof (digits_positive m Hm) as Hd.
  replace (digits m + e - PyFloat.prec - e) with (digits m - PyFloat.prec) by lia.
  unfold shr. destruct (digits m - PyFloat.prec) as [|k|k] eqn:Hn; cbn [fst snd].
  - rewrite shr_record_of_loc_m. lia.
  - rewrite iter_pos_nat.
    destruct (shr_iter_digits (Pos.to_nat k) (shr_record_of_loc m l)) as [H0 H1].
    { rewrite shr_record_of_loc_m. lia. }
    rewrite shr_record_of_loc_m, positive_nat_Z in H1.
    unfold PyFloat.prec in *.
    assert (shr_m (Nat.iter (Pos.to_nat k) shr_1 (shr_record_of_loc m l)) <> 0).
    { intros E. rewrite E in H1. simpl in H1. lia. }
    lia.
  - rewrite shr_record_of_loc_m. lia.
Qed.

Lemma round_nearest_even_digits (m : Z) (l : location) :
  0 < m ->
  0 < round_nearest_even m l /\ digits m <= digits (round_nearest_even m l).
Proof.
  intros Hm. pose proof (digits_succ m ltac:(lia)).
  unfold round_nearest_even. destruct l as [|[]]; try destruct (Z.even m); lia.
Qed.

Lemma binary_round_aux_nonzero (s : bool) (m e : Z) (l : location) :
  0 < m ->
  emin PyFloat.prec PyFloat.emax <= digits m + e - PyFloat.prec ->
  PyFloat.eq (binary_round_aux PyFloat.prec PyFloat.emax s m e l) PyFloat.zero = false.
Proof.
  intros Hm He. unfold binary_round_aux.
  pose proof (shr_fexp_positive m e l Hm He) as H1. cbv zeta in H1.
  destruct (shr_fexp PyFloat.prec PyFloat.emax m e l) as [mrs' e']. cbn [fst snd] in H1.
  destruct H1 as [Hm' He'].
  destruct (round_nearest_even_digits (shr_m mrs') (loc_of_shr_record mrs') Hm') as [Hr Hdr].
  pose proof (shr_fexp_positive _ e' loc_Exact Hr ltac:(lia)) as H2. cbv zeta in H2.
  destruct (shr_fexp PyFloat.prec PyFloat.emax _ e' loc_Exact) as [mrs'' e''].
  cbn [fst snd] in H2. destruct H2 as [Hm'' _].
  destruct (shr_m mrs'') as [|q|q]; try lia.
  destruct (e'' <=? PyFloat.emax - PyFloat.prec); destruct s; reflexivity.
Qed.

Lemma binary_round_nonzero (s : bool) (p : positive) :
  PyFloat.eq (binary_round PyFloat.prec PyFloat.emax s p 0) PyFloat.zero = false.
Proof.
  unfold binary_round, shl_align, fexp.
  assert (1 <= Z.pos (digits2_pos p)) by lia.
  assert (E : emin PyFloat.prec PyFloat.emax = -1074) by reflexivity.
  unfold PyFloat.prec in *.
  rewrite Z.max_l by lia.
  destruct (Z.pos (digits2_pos p) + 0 - 53 - 0) as [|d|d] eqn:Hd;
    apply binary_round_aux_nonzero; unfold PyFloat.prec; rewrite ?E; simpl digits; lia.
Qed.

Lemma of_int_nonzero (n : Z) :
  n <> 0 -> PyFloat.eq (PyFloat.of_int n) PyFloat.zero = false.
Proof.
  unfold PyFloat.of_int, binary_normalize. destruct n as [|p|p]; intros Hn.
  - congruence.
  - apply binary_round_nonzero.
  - apply binary_round_nonzero.
Qed.

(** ** Running the store operations *)

Lemma bind_run {A B : Type} (m : M A) (f : A -> M B) (w : world) :
  (m ≫= f) w = match m w with
               | (inr x, w') => f x w'
               | (inl e, w') => (inl e, w')
               end.
Proof. reflexivity. Qed.

Lemma truediv_int_run (x : float) (n : Z) (w : world) :
  n <> 0 -> truediv_int x n w = (inr (PyFloat.div x (PyFloat.of_int n)), w).
Proof.
  intros Hn. unfold truediv_int, truediv. rewrite of_int_nonzero by assumption.
  reflexivity.
Qed.

Lemma truediv_int_zero (x : float) (w : world) :
  truediv_int x 0 w = (inl ZeroDivisionError, w).
Proof. reflexivity. Qed.

Lemma stats_getitem_run (d : Z) (s : Stats.t) (w : world) :
  daily_stats w !! d = Some s -> stats_getitem d w = (inr s, w).
Proof. intros H. unfold stats_getitem. rewrite H. reflexivity. Qed.

Lemma stats_update_run (d : Z) (f : Stats.t -> Stats.t) (s : Stats.t) (w : world) :
  daily_stats w !! d = Some s ->
  stats_update d f w = (inr tt, set_daily_stats (<[d := f s]> (daily_stats w)) w).
Proof.
  intros H. unfold stats_update. rewrite bind_run, (stats_getitem_run d s) by assumption.
  reflexivity.
Qed.

Lemma gets_run {A : Type} (f : world -> A) (w : world) : gets f w = (inr (f w), w).
Proof. reflexivity. Qed.

Lemma modify_run (f : world -> world) (w : world) : modify f w = (inr tt, f w).
Proof. reflexivity. Qed.

Lemma mret_run {A : Type} (x : A) (w : world) : (mret x : M A) w = (inr x, w).
Proof. reflexivity. Qed.

Lemma raise_run {A : Type} (e : exn) (w : world) : (raise e : M A) w = (inl e, w).
Proof. reflexivity. Qed.

Lemma print_run (line : list piece) (w : world) :
  print line w = (inr tt, set_stdout (stdout w ++ [Print line]) w).
Proof. reflexivity. Qed.

Ltac lookup_now :=
  cbn [daily_stats calculation_history set_daily_stats set_calculation_history
       set_clock_reads set_stdin set_stdout];
  first [apply lookup_insert_eq | eassumption].

Ltac run_stats :=
  repeat (rewrite bind_run;
          first [ rewrite gets_run | rewrite modify_run | rewrite mret_run
                | erewrite stats_getitem_run by lookup_now
                | erewrite stats_update_run by lookup_now ]).

Ltac stats_fields :=
  cbn [Stats.count Stats.sum Stats.min Stats.max Stats.average Stats.set_count
       Stats.set_sum Stats.set_min Stats.set_max Stats.set_average] in *.

Ltac world_fields :=
  cbn [daily_stats calculation_history clock clock_reads stdin stdout
       set_daily_stats set_calculation_history set_clock_reads set_stdin
       set_stdout] in *.

Lemma update_daily_stats_from (d : Z) (r : float) (s : Stats.t) (w : world) :
  daily_stats w !! d = Some s ->
  Stats.count s + 1 <> 0 ->
  (stats ← stats_getitem d;
   stats_update d (Stats.set_count (Stats.count stats + 1));;
   stats ← stats_getitem d;
   stats_update d (Stats.set_sum (PyFloat.add (Stats.sum stats) r));;
   stats ← stats_getitem d;
   stats_update d (Stats.set_min (PyFloat.py_min (Stats.min stats) r));;
   stats ← stats_getitem d;
   stats_update d (Stats.set_max (PyFloat.py_max (Stats.max stats) r));;
   stats ← stats_getitem d;
   q ← truediv_int (Stats.sum stats) (Stats.count stats);
   stats_update d (Stats.set_average q)) w =
  (inr tt, set_daily_stats (<[d := updated_stats s r]> (daily_stats w)) w).
Proof.
  intros E Hc. run_stats. stats_fields.
  rewrite bind_run, truediv_int_run by exact Hc.
  erewrite stats_update_run by lookup_now.
  world_fields. stats_fields. rewrite !insert_insert_eq.
  destruct s; reflexivity.
Qed.

Lemma update_daily_stats_run (d : Z) (r : float) (w : world) :
  Stats.count (stats_before w d) + 1 <> 0 ->
  update_daily_stats d r w =
  (inr tt, set_daily_stats (<[d := updated_stats (stats_before w d) r]> (daily_stats w)) w).
Proof.
  intros Hc. unfold update_daily_stats, stats_before in *.
  rewrite bind_run, gets_run.
  destruct (daily_stats w !! d) as [s|] eqn:E; simpl in Hc.
  - rewrite bool_decide_eq_true_2 by eauto. cbn [negb].
    rewrite bind_run, mret_run. apply update_daily_stats_from; assumption.
  - rewrite bool_decide_eq_false_2 by (intros [? ?]; discriminate). cbn [negb].
    rewrite bind_run, modify_run.
    rewrite (update_daily_stats_from d r Stats.initial) by (try lookup_now; exact Hc).
    world_fields. rewrite insert_insert_eq. reflexivity.
Qed.

Lemma update_daily_stats_raises (d : Z) (r : float) (w : world) :
  Stats.count (stats_before w d) + 1 = 0 ->
  update_daily_stats d r w =
  (inl ZeroDivisionError,
   set_daily_stats (<[d := half_updated_stats (stats_before w d) r]> (daily_stats w)) w).
Proof.
  intros Hc. unfold update_daily_stats, stats_before in *.
  rewrite bind_run, gets_run.
  destruct (daily_stats w !! d) as [s|] eqn:E; simpl in Hc.
  - rewrite bool_decide_eq_true_2 by eauto. cbn [negb].
    rewrite bind_run, mret_run. run_stats. stats_fields.
    rewrite bind_run, Hc, truediv_int_zero.
    world_fields. rewrite !insert_insert_eq.
    unfold half_updated_stats. cbn [default id]. rewrite Hc. destruct s; reflexivity.
  - discriminate.
Qed.

(** Whatever happens, [update_daily_stats] touches the entry of its day only,
    and nothing else of the world. *)
Lemma update_daily_stats_world (d : Z) (r : float) (w : world) :
  exists s,
    snd (update_daily_stats d r w) = set_daily_stats (<[d := s]> (daily_stats w)) w /\
    Stats.count s = Stats.count (stats_before w d) + 1 /\
    Stats.sum s = PyFloat.add (Stats.sum (stats_before w d)) r /\
    Stats.min s = PyFloat.py_min (Stats.min (stats_before w d)) r /\
    Stats.max s = PyFloat.py_max (Stats.max (stats_before w d)) r /\
    (Stats.count s <> 0 ->
     Stats.average s = PyFloat.div (Stats.sum s) (PyFloat.of_int (Stats.count s))).
Proof.
  destruct (Z.eq_dec (Stats.count (stats_before w d) + 1) 0) as [Hc|Hc].
  - rewrite update_daily_stats_raises by assumption.
    eexists; split; [reflexivity|]. repeat split. simpl. intros; contradiction.
  - rewrite update_daily_stats_run by assumption.
    eexists; split; [reflexivity|]. repeat split.
Qed.

Lemma history_append_run (d : Z) (record : Calc.t) (l : list Calc.t) (w : world) :
  calculation_history w !! d = Some l ->
  history_append d record w =
  (inr tt, set_calculation_history (<[d := l ++ [record]]> (calculation_history w)) w).
Proof. intros H. unfold history_append. rewrite H. reflexivity. Qed.

(** [store_calculation] up to its call of [update_daily_stats]. *)
Lemma store_calculation_unfold (num1 num2 : float) (operation : string)
    (result : float) (w : world) :
  store_calculation num1 num2 operation result w =
  update_daily_stats (current_day w) result
    (World (<[current_day w := records_of w (current_day w)
                                ++ [new_record w num1 num2 operation result]]>
              (calculation_history w))
           (daily_stats w) (clock w) (S (S (clock_reads w))) (stdin w) (stdout w)).
Proof.
  unfold store_calculation, current_day, new_record, records_of.
  rewrite bind_run. unfold datetime_now at 1. cbv beta iota.
  rewrite bind_run. unfold datetime_now at 1. world_fields. cbv beta iota zeta.
  rewrite bind_run, gets_run. world_fields.
  destruct (calculation_history w !! day (clock w (clock_reads w))) as [l|] eqn:E.
  - rewrite bool_decide_eq_true_2 by eauto. cbn [negb].
    rewrite bind_run, mret_run, bind_run.
    erewrite history_append_run by (world_fields; eassumption).
    reflexivity.
  - rewrite bool_decide_eq_false_2 by (intros [? ?]; discriminate). cbn [negb].
    rewrite bind_run, modify_run, bind_run.
    erewrite history_append_run by (world_fields; apply lookup_insert_eq).
    world_fields. rewrite insert_insert_eq. reflexivity.
Qed.

Lemma store_calculation_run (num1 num2 : float) (operation : string)
    (result : float) (w : world) :
  Stats.count (stats_before w (current_day w)) + 1 <> 0 ->
  store_calculation num1 num2 operation result w =
  (inr tt,
   World (<[current_day w := records_of w (current_day w)
                               ++ [new_record w num1 num2 operation result]]>
            (calculation_history w))
         (<[current_day w := updated_stats (stats_before w (current_day w)) result]>
            (daily_stats w))
         (clock w) (S (S (clock_reads w))) (stdin w) (stdout w)).
Proof.
  intros Hc. rewrite store_calculation_unfold, update_daily_stats_run; [reflexivity|].
  exact Hc.
Qed.

(** ** The entry of a day as a fold over its results *)

Lemma stats_of_app (rs : list float) (r : float) :
  stats_of (rs ++ [r]) = updated_stats (stats_of rs) r.
Proof. unfold stats_of. rewrite fold_left_app. reflexivity. Qed.

Lemma fold_updated_count (rs : list float) (s : Stats.t) :
  Stats.count (fold_left updated_stats rs s) = Stats.count s + Z.of_nat (length rs).
Proof.
  revert s. induction rs as [|r rs IH]; intros s; simpl fold_left.
  - simpl. lia.
  - rewrite IH. simpl. lia.
Qed.

Lemma fold_updated_sum (rs : list float) (s : Stats.t) :
  Stats.sum (fold_left updated_stats rs s) = fold_left PyFloat.add rs (Stats.sum s).
Proof. revert s. induction rs as [|r rs IH]; intros s; simpl; [|rewrite IH]; reflexivity. Qed.

Lemma fold_updated_min (rs : list float) (s : Stats.t) :
  Stats.min (fold_left updated_stats rs s) = fold_left PyFloat.py_min rs (Stats.min s).
Proof. revert s. induction rs as [|r rs IH]; intros s; simpl; [|rewrite IH]; reflexivity. Qed.

Lemma fold_updated_max (rs : list float) (s : Stats.t) :
  Stats.max (fold_left updated_stats rs s) = fold_left PyFloat.py_max rs (Stats.max s).
Proof. revert s. induction rs as [|r rs IH]; intros s; simpl; [|rewrite IH]; reflexivity. Qed.

Lemma stats_of_count (rs : list float) :
  Stats.count (stats_of rs) = Z.of_nat (length rs).
Proof. unfold stats_of. rewrite fold_updated_count. reflexivity. Qed.

Lemma stats_of_sum (rs : list float) : Stats.sum (stats_of rs) = float_sum rs.
Proof. unfold stats_of. rewrite fold_updated_sum. reflexivity. Qed.

Lemma stats_of_average (rs : list float) :
  rs <> [] ->
  Stats.average (stats_of rs) =
  PyFloat.div (Stats.sum (stats_of rs)) (PyFloat.of_int (Stats.count (stats_of rs))).
Proof.
  intros Hne. destruct (exists_last Hne) as (rs' & r & ->).
  rewrite stats_of_app. reflexivity.
Qed.

(** ** Minimum and maximum *)

Lemma lt_not_nan (x y : float) : PyFloat.lt x y = true -> not_nan x.
Proof. destruct x; [reflexivity..|discriminate|reflexivity]. Qed.

Lemma gt_not_nan (x y : float) : PyFloat.gt x y = true -> not_nan x.
Proof. destruct x; [reflexivity..|discriminate|reflexivity]. Qed.

Lemma le_inf (r : float) : PyFloat.le PyFloat.inf r = true -> r = PyFloat.inf.
Proof. destruct r as [s|[]| |s m e]; simpl; try discriminate; reflexivity. Qed.

Lemma le_neg_inf (r : float) : PyFloat.le r PyFloat.neg_inf = true -> r = PyFloat.neg_inf.
Proof.
  destruct r as [s|[]| |[] m e]; try discriminate; try reflexivity.
Qed.

Lemma In_non_nan (r : float) (rs : list float) :
  In r (non_nan rs) <-> In r rs /\ not_nan r.
Proof.
  unfold non_nan, not_nan. rewrite filter_In, negb_true_iff. reflexivity.
Qed.

Lemma fold_py_min (rs : list float) (a : float) :
  not_nan a ->
  let m := fold_left PyFloat.py_min rs a in
  not_nan m /\ (m = a \/ In m (non_nan rs)) /\ PyFloat.le m a = true /\
  forall r, In r (non_nan rs) -> PyFloat.le m r = true.
Proof.
  revert a. induction rs as [|r rs IH]; intros a Ha; cbn zeta.
  - simpl. repeat split; auto using le_refl.
  - simpl fold_left.
    assert (Hstep : not_nan (PyFloat.py_min a r) /\
                    PyFloat.le (PyFloat.py_min a r) a = true /\
                    (not_nan r -> PyFloat.le (PyFloat.py_min a r) r = true) /\
                    (PyFloat.py_min a r = a \/ (PyFloat.py_min a r = r /\ not_nan r))).
    { unfold PyFloat.py_min. destruct (PyFloat.lt r a) eqn:E.
      - pose proof (lt_not_nan _ _ E). repeat split; auto using lt_le, le_refl.
      - repeat split; auto using le_refl. intros Hr. apply not_lt_le; assumption. }
    destruct Hstep as (Hn & Hle & Hr & Hsel).
    destruct (IH _ Hn) as (Hm & Hin & Hma & Hall). cbn zeta in *.
    split; [assumption|]. split; [|split].
    + destruct Hin as [->|Hin].
      * destruct Hsel as [->|[-> Hnr]]; [left; reflexivity|right].
        apply In_non_nan. split; [left; reflexivity|assumption].
      * right. apply In_non_nan. apply In_non_nan in Hin. destruct Hin; split; [right|]; assumption.
    + eapply le_trans; eassumption.
    + intros r' Hr'. apply In_non_nan in Hr'. destruct Hr' as [[<-|Hr'] Hnn].
      * eapply le_trans; [eassumption|]. apply Hr; assumption.
      * apply Hall. apply In_non_nan. split; assumption.
Qed.

Lemma fold_py_max (rs : list float) (a : float) :
  not_nan a ->
  let m := fold_left PyFloat.py_max rs a in
  not_nan m /\ (m = a \/ In m (non_nan rs)) /\ PyFloat.le a m = true /\
  forall r, In r (non_nan rs) -> PyFloat.le r m = true.
Proof.
  revert a. induction rs as [|r rs IH]; intros a Ha; cbn zeta.
  - simpl. repeat split; auto using le_refl.
  - simpl fold_left.
    assert (Hstep : not_nan (PyFloat.py_max a r) /\
                    PyFloat.le a (PyFloat.py_max a r) = true /\
                    (not_nan r -> PyFloat.le r (PyFloat.py_max a r) = true) /\
                    (PyFloat.py_max a r = a \/ (PyFloat.py_max a r = r /\ not_nan r))).
    { unfold PyFloat.py_max. destruct (PyFloat.gt r a) eqn:E.
      - pose proof (gt_not_nan _ _ E). repeat split; auto using gt_le, le_refl.
      - repeat split; auto using le_refl. intros Hr. apply not_gt_le; assumption. }
    destruct Hstep as (Hn & Hle & Hr & Hsel).
    destruct (IH _ Hn) as (Hm & Hin & Hma & Hall). cbn zeta in *.
    split; [assumption|]. split; [|split].
    + destruct Hin as [->|Hin].
      * destruct Hsel as [->|[-> Hnr]]; [left; reflexivity|right].
        apply In_non_nan. split; [left; reflexivity|assumption].
      * right. apply In_non_nan. apply In_non_nan in Hin. destruct Hin; split; [right|]; assumption.
    + eapply le_trans; eassumption.
    + intros r' Hr'. apply In_non_nan in Hr'. destruct Hr' as [[<-|Hr'] Hnn].
      * eapply le_trans; [|eassumption]. apply Hr; assumption.
      * apply Hall. apply In_non_nan. split; assumption.
Qed.

(** The sentinels make the minimum and the maximum of the entry those of the
    results that are numbers. *)
Lemma stats_of_min (rs : list float) :
  non_nan rs <> [] -> is_minimum (Stats.min (stats_of rs)) (non_nan rs).
Proof.
  intros Hne. unfold stats_of. rewrite fold_updated_min. simpl Stats.min.
  destruct (fold_py_min rs PyFloat.inf eq_refl) as (_ & Hin & _ & Hall). cbn zeta in *.
  split; [|exact Hall].
  destruct Hin as [E|Hin]; [|exact Hin].
  destruct (non_nan rs) as [|r0 l] eqn:El; [congruence|].
  rewrite E in *. rewrite (le_inf r0) at 1; [left; reflexivity|].
  apply Hall. left; reflexivity.
Qed.

Lemma stats_of_max (rs : list float) :
  non_nan rs <> [] -> is_maximum (Stats.max (stats_of rs)) (non_nan rs).
Proof.
  intros Hne. unfold stats_of. rewrite fold_updated_max. simpl Stats.max.
  destruct (fold_py_max rs PyFloat.neg_inf eq_refl) as (_ & Hin & _ & Hall). cbn zeta in *.
  split; [|exact Hall].
  destruct Hin as [E|Hin]; [|exact Hin].
  destruct (non_nan rs) as [|r0 l] eqn:El; [congruence|].
  rewrite E in *. rewrite (le_neg_inf r0) at 1; [left; reflexivity|].
  apply Hall. left; reflexivity.
Qed.

(** ** The store invariant *)

Lemma store_inv_init (w : world) : initial_store w -> store_inv w.
Proof. intros [Hh Hs] d. rewrite Hh, Hs, !lookup_empty. exact I. Qed.

Lemma store_inv_count (w : world) (d : Z) :
  store_inv w -> 0 <= Stats.count (stats_before w d).
Proof.
  intros Hinv. specialize (Hinv d). unfold stats_before.
  destruct (calculation_history w !! d), (daily_stats w !! d); simpl; try tauto; try lia.
  destruct Hinv as [_ ->]. rewrite stats_of_count. lia.
Qed.

Lemma store_inv_stored (w : world) (record : Calc.t) (n : nat) (i o : list string * list event) :
  store_inv w ->
  store_inv
    (World (<[current_day w := records_of w (current_day w) ++ [record]]>
              (calculation_history w))
           (<[current_day w := updated_stats (stats_before w (current_day w))
                                 (Calc.result record)]> (daily_stats w))
           (clock w) n (fst i) (snd o)).
Proof.
  intros Hinv d. world_fields.
  destruct (decide (current_day w = d)) as [<-|Hne].
  - rewrite !lookup_insert_eq. split; [destruct (records_of _ _); discriminate|].
    rewrite map_app. simpl map. rewrite stats_of_app. f_equal.
    specialize (Hinv (current_day w)). unfold stats_before, records_of.
    destruct (calculation_history w !! current_day w), (daily_stats w !! current_day w);
      simpl; try tauto; try reflexivity; destruct Hinv; congruence.
  - rewrite !lookup_insert_ne by assumption. apply Hinv.
Qed.

Lemma store_calculation_inv (num1 num2 : float) (operation : string)
    (result : float) (w : world) :
  store_inv w ->
  fst (store_calculation num1 num2 operation result w) = inr tt /\
  store_inv (snd (store_calculation num1 num2 operation result w)).
Proof.
  intros Hinv. pose proof (store_inv_count w (current_day w) Hinv).
  rewrite store_calculation_run by lia. split; [reflexivity|]. cbn [snd].
  apply (store_inv_stored w (new_record w num1 num2 operation result) _
           (stdin w, []) ([], stdout w) Hinv).
Qed.

Lemma reachable_inv (w : world) : reachable w -> store_inv w.
Proof.
  induction 1 as [w Hinit|w w' n1 n2 op r _ IH Hrun|w w' _ IH Hh Hs].
  - apply store_inv_init; assumption.
  - destruct (store_calculation_inv n1 n2 op r w IH) as [_ Hinv].
    rewrite Hrun in Hinv. exact Hinv.
  - intros d. rewrite Hh, Hs. apply IH.
Qed.

(** From a state of the store, [store_calculation] always returns. *)
Lemma store_calculation_returns (num1 num2 : float) (operation : string)
    (result : float) (w : world) :
  reachable w ->
  fst (store_calculation num1 num2 operation result w) = inr tt /\
  reachable (snd (store_calculation num1 num2 operation result w)).
Proof.
  intros Hr. destruct (store_calculation_inv num1 num2 operation result w
                         (reachable_inv w Hr)) as [Hok _].
  destruct (store_calculation num1 num2 operation result w) as [res w'] eqn:E.
  simpl in *. subst res. split; [reflexivity|].
  eapply reachable_store; eassumption.
Qed.

Lemma reachable_demo (d : Z) : reachable (demo_world d).
Proof. apply reachable_init. split; reflexivity. Qed.

Lemma reachable_nan_world : reachable nan_world.
Proof. apply store_calculation_returns, reachable_demo. Qed.

Lemma reachable_eight_world : reachable eight_world.
Proof. apply store_calculation_returns, reachable_demo. Qed.

(** ** Appending results to a fresh day *)

Lemma stats_before_updated (d : Z) (s : Stats.t) (w : world) :
  stats_before (set_daily_stats (<[d := s]> (daily_stats w)) w) d = s.
Proof. unfold stats_before. world_fields. rewrite lookup_insert_eq. reflexivity. Qed.

Lemma for_each_update (d : Z) (rs : list float) (w : world) :
  0 <= Stats.count (stats_before w d) ->
  for_each rs (update_daily_stats d) w =
  (inr tt,
   match rs with
   | [] => w
   | _ :: _ =>
       set_daily_stats
         (<[d := fold_left updated_stats rs (stats_before w d)]> (daily_stats w)) w
   end).
Proof.
  revert w. induction rs as [|r rs IH]; intros w Hc; [reflexivity|].
  cbn [for_each]. rewrite bind_run, update_daily_stats_run by lia.
  rewrite IH; rewrite stats_before_updated; [|simpl; lia].
  destruct rs as [|r' rs]; [reflexivity|].
  world_fields. rewrite insert_insert_eq. reflexivity.
Qed.

Lemma stats_describe_numbers_of (rs : list float) :
  rs <> [] -> stats_describe_numbers (stats_of rs) rs.
Proof.
  intros Hne. split; [|split].
  - split; [apply stats_of_count|]. split; [apply stats_of_sum|].
    rewrite stats_of_average by assumption. rewrite stats_of_sum, stats_of_count.
    reflexivity.
  - intros Hn. split; [apply stats_of_min|apply stats_of_max]; assumption.
  - intros r -> Hr. unfold stats_of, updated_stats, PyFloat.py_min, PyFloat.py_max.
    simpl. split.
    + destruct (PyFloat.lt r PyFloat.inf) eqn:E; [reflexivity|].
      symmetry. apply le_inf. apply not_lt_le; [assumption|reflexivity|assumption].
    + destruct (PyFloat.gt r PyFloat.neg_inf) eqn:E; [reflexivity|].
      symmetry. apply le_neg_inf. apply not_gt_le; [assumption|reflexivity|assumption].
Qed.

(** C1 (as amended).  On a day without statistics, appending the results
    [rs] and then [r] through [update_daily_stats] returns at every step, and
    after the append of [r] the entry of the day has count [N], the sum
    [0.0 + r1 + ... + rN], the average [sum / N], and as min and max the least
    and the greatest of the results that are not NaN; a first result that is
    not NaN is both min and max. *)
Theorem stats_after_appends (w : world) (d : Z) (rs : list float) (r : float) :
  daily_stats w !! d = None ->
  exists w1 w2 s,
    for_each rs (update_daily_stats d) w = (inr tt, w1) /\
    update_daily_stats d r w1 = (inr tt, w2) /\
    for_each (rs ++ [r]) (update_daily_stats d) w = (inr tt, w2) /\
    daily_stats w2 !! d = Some s /\
    stats_describe_numbers s (rs ++ [r]).
Proof.
  intros Hnone.
  assert (Hb : stats_before w d = Stats.initial) by (unfold stats_before; rewrite Hnone; reflexivity).
  assert (Hne : rs ++ [r] <> []) by (destruct rs; discriminate).
  pose proof (for_each_update d rs w) as H1.
  pose proof (for_each_update d (rs ++ [r]) w) as H2.
  rewrite Hb in H1, H2. specialize (H1 ltac:(simpl; lia)). specialize (H2 ltac:(simpl; lia)).
  exists (snd (for_each rs (update_daily_stats d) w)),
         (snd (for_each (rs ++ [r]) (update_daily_stats d) w)),
         (stats_of (rs ++ [r])).
  rewrite H1, H2. cbn [snd].
  assert (E : match rs ++ [r] with
              | [] => w
              | _ :: _ => set_daily_stats
                            (<[d := fold_left updated_stats (rs ++ [r]) Stats.initial]>
                               (daily_stats w)) w
              end = set_daily_stats (<[d := stats_of (rs ++ [r])]> (daily_stats w)) w).
  { destruct (rs ++ [r]); [congruence|reflexivity]. }
  rewrite E. clear E. split; [reflexivity|]. split; [|split; [|split]].
  - rewrite stats_of_app. destruct rs as [|r0 rs'].
    + rewrite update_daily_stats_run by (rewrite Hb; simpl; lia). rewrite Hb. reflexivity.
    + rewrite update_daily_stats_run;
        rewrite stats_before_updated, ?fold_updated_count; [|simpl; lia].
      world_fields. rewrite insert_insert_eq. reflexivity.
  - reflexivity.
  - world_fields. apply lookup_insert_eq.
  - apply stats_describe_numbers_of; assumption.
Qed.

(** Scenario 3 of the specification: [10 / 2 = 5.0] then [4 * 4 = 16.0]. *)
Lemma stats_after_appends_witness :
  daily_stats (demo_world 5) !! 5 = None /\
  exists w1 w2 s,
    for_each [PyFloat.of_int 5] (update_daily_stats 5) (demo_world 5) = (inr tt, w1) /\
    update_daily_stats 5 (PyFloat.of_int 16) w1 = (inr tt, w2) /\
    for_each ([PyFloat.of_int 5] ++ [PyFloat.of_int 16]) (update_daily_stats 5) (demo_world 5)
      = (inr tt, w2) /\
    daily_stats w2 !! 5 = Some s /\
    stats_describe_numbers s ([PyFloat.of_int 5] ++ [PyFloat.of_int 16]).
Proof.
  split; [reflexivity|].
  apply (stats_after_appends (demo_world 5) 5 [PyFloat.of_int 5] (PyFloat.of_int 16)).
  reflexivity.
Defined.

(** C1 as stated fails when a result is NaN: appended first to a fresh day,
    it leaves min at [inf] and max at [-inf], neither of which is the
    result. *)
Lemma nan_first_result_not_min_max :
  exists w' s,
    for_each [PyFloat.nan] (update_daily_stats 5) (demo_world 5) = (inr tt, w') /\
    daily_stats w' !! 5 = Some s /\
    Stats.min s = PyFloat.inf /\ Stats.max s = PyFloat.neg_inf /\
    ~ stats_describe s [PyFloat.nan].
Proof.
  eexists _, _. split; [vm_compute; reflexivity|]. split; [vm_compute; reflexivity|].
  split; [reflexivity|]. split; [reflexivity|].
  intros (_ & [Hin _] & _). simpl in Hin. destruct Hin as [Hin|[]]. discriminate.
Qed.

Example scenario_1 :
  daily_stats eight_world !! 5 =
  Some (Stats.Make 1 (PyFloat.of_int 8) (PyFloat.of_int 8) (PyFloat.of_int 8) (PyFloat.of_int 8)).
Proof. vm_compute. reflexivity. Qed.

(** ** Invariants of the store *)

(** C4.  In every state of the store, a day has a statistics entry exactly
    when it has a history key with at least one record, and the count of the
    entry is the number of records of the day. *)
Theorem stats_days_are_history_days (w : world) :
  reachable w ->
  forall d : Z,
    (is_Some (daily_stats w !! d) <->
     exists l, calculation_history w !! d = Some l /\ l <> []) /\
    (forall s, daily_stats w !! d = Some s ->
               Stats.count s = Z.of_nat (length (records_of w d))).
Proof.
  intros Hr d. pose proof (reachable_inv w Hr d) as Hinv. unfold records_of.
  destruct (calculation_history w !! d) as [l|], (daily_stats w !! d) as [s|];
    try contradiction.
  - destruct Hinv as [Hne ->]. split.
    + split; eauto.
    + intros s' [= <-]. rewrite stats_of_count, length_map. reflexivity.
  - split.
    + split; [intros [? ?]; discriminate|intros (? & ? & _); discriminate].
    + discriminate.
Qed.

Lemma stats_days_are_history_days_witness :
  reachable eight_world /\
  forall d : Z,
    (is_Some (daily_stats eight_world !! d) <->
     exists l, calculation_history eight_world !! d = Some l /\ l <> []) /\
    (forall s, daily_stats eight_world !! d = Some s ->
               Stats.count s = Z.of_nat (length (records_of eight_world d))).
Proof.
  split; [exact reachable_eight_world|].
  apply (stats_days_are_history_days eight_world). exact reachable_eight_world.
Defined.

(** C5 (as amended).  In every state of the store and for every day with a
    positive count, the average is the sum divided by the count, and every
    recorded result that is not NaN lies between min and max. *)
Theorem stats_bound_results (w : world) :
  reachable w -> stats_bound_number_results w.
Proof.
  intros Hr d s Hs Hc. pose proof (reachable_inv w Hr d) as Hinv.
  unfold results_of, records_of. rewrite Hs in Hinv.
  destruct (calculation_history w !! d) as [l|]; [|contradiction].
  destruct Hinv as [Hne ->]. simpl default.
  assert (Hm : map Calc.result l <> []) by (destruct l; [congruence|discriminate]).
  split; [apply stats_of_average; assumption|].
  intros r Hin Hnn.
  assert (Hin' : In r (non_nan (map Calc.result l))) by (apply In_non_nan; auto).
  assert (Hnon : non_nan (map Calc.result l) <> [])
    by (destruct (non_nan (map Calc.result l)); [destruct Hin'|discriminate]).
  split.
  - apply (stats_of_min _ Hnon). assumption.
  - apply (stats_of_max _ Hnon). assumption.
Qed.

Lemma stats_bound_results_witness :
  reachable eight_world /\ stats_bound_number_results eight_world.
Proof.
  split; [exact reachable_eight_world|].
  apply (stats_bound_results eight_world). exact reachable_eight_world.
Defined.

(** C5 as stated fails once a NaN has been recorded: after [nan + 1.0] is
    stored, the day has count 1, min [inf] and max [-inf], and the recorded
    result is not between them. *)
Lemma nan_result_outside_bounds :
  reachable nan_world /\ ~ stats_bound_all_results nan_world.
Proof.
  split; [exact reachable_nan_world|].
  intros H.
  destruct (H 5 (Stats.Make 1 PyFloat.nan PyFloat.inf PyFloat.neg_inf PyFloat.nan))
    as [_ Hb]; [vm_compute; reflexivity|reflexivity|].
  destruct (Hb PyFloat.nan) as [Hmin _]; [vm_compute; auto|].
  discriminate.
Qed.

(** ** The frame of the store operation *)

(** C10.  [store_calculation] puts one record at the end of the list of the
    current day and leaves the earlier records in place; it gives that day's
    entry one more count and the new sum, min, max and average; the lists and the
    entries of all other days are as before. *)
Theorem store_calculation_frame (num1 num2 : float) (operation : string)
    (result : float) (w : world) :
  let w' := snd (store_calculation num1 num2 operation result w) in
  let d := current_day w in
  calculation_history w' !! d =
    Some (records_of w d ++ [new_record w num1 num2 operation result]) /\
  Calc.result (new_record w num1 num2 operation result) = result /\
  (exists s, daily_stats w' !! d = Some s /\
             Stats.count s = Stats.count (stats_before w d) + 1 /\
             Stats.sum s = PyFloat.add (Stats.sum (stats_before w d)) result /\
             Stats.min s = PyFloat.py_min (Stats.min (stats_before w d)) result /\
             Stats.max s = PyFloat.py_max (Stats.max (stats_before w d)) result /\
             (Stats.count s <> 0 ->
              Stats.average s =
              PyFloat.div (Stats.sum s) (PyFloat.of_int (Stats.count s)))) /\
  forall d', d' <> d ->
    calculation_history w' !! d' = calculation_history w !! d' /\
    daily_stats w' !! d' = daily_stats w !! d'.
Proof.
  cbv zeta. rewrite store_calculation_unfold.
  match goal with |- context [update_daily_stats ?d ?r ?w0] =>
    destruct (update_daily_stats_world d r w0) as (s & -> & Hc & Hsum & Hmin & Hmax & Havg)
  end.
  unfold stats_before in *. world_fields.
  split; [apply lookup_insert_eq|]. split; [reflexivity|]. split.
  - exists s. rewrite lookup_insert_eq. repeat split; assumption.
  - intros d' Hne. rewrite !lookup_insert_ne by congruence. auto.
Qed.

(** ** The evaluator *)

(** C2.  On the four operators the evaluator returns the IEEE-754 sum,
    difference, product and quotient of its operands (of the quotient when
    the second operand does not compare equal to zero), and changes
    nothing. *)
Theorem execute_operation_arithmetic (a b : float) (w : world) :
  execute_operation a b "+" w = (inr (PyFloat.add a b), w) /\
  execute_operation a b "-" w = (inr (PyFloat.sub a b), w) /\
  execute_operation a b "*" w = (inr (PyFloat.mul a b), w) /\
  (PyFloat.eq b PyFloat.zero = false ->
   execute_operation a b "/" w = (inr (PyFloat.div a b), w)).
Proof.
  repeat split. intros Hb. unfold execute_operation, truediv. simpl. rewrite Hb.
  reflexivity.
Qed.

Lemma execute_operation_arithmetic_witness :
  PyFloat.eq (PyFloat.of_int 2) PyFloat.zero = false /\
  execute_operation (PyFloat.of_int 10) (PyFloat.of_int 2) "/" (demo_world 5)
  = (inr (PyFloat.of_int 5), demo_world 5).
Proof.
  split; [reflexivity|].
  destruct (execute_operation_arithmetic (PyFloat.of_int 10) (PyFloat.of_int 2) (demo_world 5))
    as (_ & _ & _ & Hdiv).
  rewrite Hdiv; reflexivity.
Defined.

Lemma is_operator_cases (operation : string) :
  is_operator operation = true <->
  operation = "+" \/ operation = "-" \/ operation = "*" \/ operation = "/".
Proof.
  unfold is_operator. rewrite !orb_true_iff, !String.eqb_eq. tauto.
Qed.

Lemma execute_operation_raises_when (a b : float) (operation : string) (w : world) :
  (is_operator operation = false ->
   execute_operation a b operation w
   = (inl (ValueError ("Unknown operation: " +:+ operation)), w)) /\
  ((exists msg, fst (execute_operation a b operation w) = inl (ValueError msg)) <->
   is_operator operation = false) /\
  (evaluator_raises a b operation w <->
   is_operator operation = false \/
   (operation = "/" /\ PyFloat.eq b PyFloat.zero = true)).
Proof.
  unfold evaluator_raises, execute_operation, is_operator, truediv.
  destruct (String.eqb_spec operation "+") as [->|H1]; simpl.
  { repeat split; try discriminate; intros; try (destruct H; discriminate).
    destruct H as [?|[? _]]; discriminate. }
  destruct (String.eqb_spec operation "-") as [->|H2]; simpl.
  { repeat split; try discriminate; intros; try (destruct H; discriminate).
    destruct H as [?|[? _]]; discriminate. }
  destruct (String.eqb_spec operation "*") as [->|H3]; simpl.
  { repeat split; try discriminate; intros; try (destruct H; discriminate).
    destruct H as [?|[? _]]; discriminate. }
  destruct (String.eqb_spec operation "/") as [->|H4]; simpl.
  { destruct (PyFloat.eq b PyFloat.zero) eqn:Eb; simpl;
      repeat split; try discriminate; intros; try (destruct H; discriminate); eauto.
    destruct H as [?|[_ ?]]; discriminate. }
  repeat split; eauto.
Qed.

(** C8.  For an operator outside [+ - * /] the evaluator raises
    [ValueError("Unknown operation: <operator>")] and returns nothing; it
    raises that error exactly for these operators, on every input; and on
    every input that [main] lets through to it, which is every input that
    passes the validation, it raises at all exactly for these operators.
    (Without the validation the one other raise is [/] with a second operand
    equal to zero, third part.) *)
Theorem execute_operation_unknown (a b : float) (operation : string) (w : world) :
  (is_operator operation = false ->
   execute_operation a b operation w
   = (inl (ValueError ("Unknown operation: " +:+ operation)), w)) /\
  ((exists msg, fst (execute_operation a b operation w) = inl (ValueError msg)) <->
   is_operator operation = false) /\
  (evaluator_raises a b operation w <->
   is_operator operation = false \/
   (operation = "/" /\ PyFloat.eq b PyFloat.zero = true)) /\
  (passes_validation b operation = true ->
   (evaluator_raises a b operation w <-> is_operator operation = false)).
Proof.
  destruct (execute_operation_raises_when a b operation w) as (H1 & H2 & H3).
  split; [exact H1|]. split; [exact H2|]. split; [exact H3|].
  intros Hv. rewrite H3. split; [|auto].
  intros [Hu|[-> Hz]]; [exact Hu|].
  unfold passes_validation in Hv. rewrite Hz in Hv. discriminate Hv.
Qed.

Lemma execute_operation_unknown_witness :
  passes_validation (PyFloat.of_int 2) "%" = true /\
  execute_operation (PyFloat.of_int 10) (PyFloat.of_int 2) "%" (demo_world 5)
  = (inl (ValueError "Unknown operation: %"), demo_world 5) /\
  (evaluator_raises (PyFloat.of_int 10) (PyFloat.of_int 2) "%" (demo_world 5) <->
   is_operator "%" = false).
Proof.
  destruct (execute_operation_unknown (PyFloat.of_int 10) (PyFloat.of_int 2) "%"
              (demo_world 5)) as (H1 & _ & _ & H4).
  split; [reflexivity|]. split; [apply H1; reflexivity|apply H4; reflexivity].
Defined.

(** Called with [/] and a zero divisor, which [main] never does, the evaluator
    raises [ZeroDivisionError]: the validation is what the last part of
    [execute_operation_unknown] rests on. *)
Lemma division_by_zero_raises_in_evaluator :
  is_operator "/" = true /\
  execute_operation (PyFloat.of_int 1) PyFloat.zero "/" (demo_world 5)
  = (inl ZeroDivisionError, demo_world 5) /\
  ~ (evaluator_raises (PyFloat.of_int 1) PyFloat.zero "/" (demo_world 5) <->
     is_operator "/" = false).
Proof.
  split; [reflexivity|]. split; [reflexivity|].
  intros [H _]. discriminate H. exists ZeroDivisionError. reflexivity.
Qed.

(** ** Computations that only read the store *)

Create HintDb read_only discriminated.

Lemma same_store_refl (w : world) : same_store w w.
Proof. split; reflexivity. Qed.

Lemma same_store_trans (w1 w2 w3 : world) :
  same_store w1 w2 -> same_store w2 w3 -> same_store w1 w3.
Proof. intros [H1 H2] [H3 H4]. split; congruence. Qed.

Lemma read_only_mret {A : Type} (x : A) : read_only (mret x : M A).
Proof. intros w. apply same_store_refl. Qed.

Lemma read_only_raise {A : Type} (e : exn) : read_only (raise e : M A).
Proof. intros w. apply same_store_refl. Qed.

Lemma read_only_gets {A : Type} (f : world -> A) : read_only (gets f).
Proof. intros w. apply same_store_refl. Qed.

Lemma read_only_bind {A B : Type} (m : M A) (f : A -> M B) :
  read_only m -> (forall x, read_only (f x)) -> read_only (m ≫= f).
Proof.
  intros Hm Hf w. rewrite bind_run. specialize (Hm w).
  destruct (m w) as [[e|x] w1]; [exact Hm|].
  eapply same_store_trans; [exact Hm|apply Hf].
Qed.

Lemma read_only_print (line : list piece) : read_only (print line).
Proof. intros w. split; reflexivity. Qed.

Lemma read_only_input (prompt : string) : read_only (input prompt).
Proof. intros w. unfold input. cbv zeta. world_fields. destruct (stdin w); split; reflexivity. Qed.

Lemma read_only_datetime_now : read_only datetime_now.
Proof. intros w. split; reflexivity. Qed.

Lemma read_only_history_getitem (d : Z) : read_only (history_getitem d).
Proof.
  intros w. unfold history_getitem. destruct (calculation_history w !! d); split; reflexivity.
Qed.

Lemma read_only_stats_getitem (d : Z) : read_only (stats_getitem d).
Proof.
  intros w. unfold stats_getitem. destruct (daily_stats w !! d); split; reflexivity.
Qed.

Lemma read_only_for_each {A : Type} (l : list A) (body : A -> M unit) :
  (forall x, read_only (body x)) -> read_only (for_each l body).
Proof.
  intros Hb. induction l as [|x l IH]; cbn [for_each].
  - apply read_only_mret.
  - apply read_only_bind; auto.
Qed.

Lemma read_only_except {A : Type} (body handler : M A) :
  read_only body -> read_only handler -> read_only (except_ValueError body handler).
Proof.
  intros Hb Hh w. unfold except_ValueError. specialize (Hb w).
  destruct (body w) as [[[msg| | |]|x] w1]; try exact Hb.
  eapply same_store_trans; [exact Hb|apply Hh].
Qed.

#[local] Hint Resolve read_only_mret read_only_raise read_only_gets read_only_print
  read_only_input read_only_datetime_now read_only_history_getitem
  read_only_stats_getitem : read_only.

Ltac read_only_steps :=
  repeat first
    [ progress auto with read_only
    | apply read_only_bind; [|intros ?]
    | apply read_only_for_each; intros ?
    | apply read_only_except
    | match goal with
      | |- read_only (if ?b then _ else _) => destruct b
      | |- read_only (match ?x with _ => _ end) => destruct x
      | |- read_only (let '(_, _) := ?x in _) => destruct x
      end ].

Lemma read_only_validate_inputs (num1 num2 : float) (operation : string) :
  read_only (validate_inputs num1 num2 operation).
Proof. unfold validate_inputs. read_only_steps. Qed.

Lemma read_only_display_result (num1 num2 : float) (operation : string) (result : float) :
  read_only (display_result num1 num2 operation result).
Proof. unfold display_result. read_only_steps. Qed.

Lemma read_only_print_stats_lines (stats : Stats.t) : read_only (print_stats_lines stats).
Proof. unfold print_stats_lines. read_only_steps. Qed.

Lemma read_only_display_daily_history (d : option Z) : read_only (display_daily_history d).
Proof.
  pose proof read_only_print_stats_lines.
  unfold display_daily_history. read_only_steps.
Qed.

Lemma read_only_display_all_statistics : read_only display_all_statistics.
Proof.
  pose proof read_only_print_stats_lines.
  unfold display_all_statistics. read_only_steps.
Qed.

Section ShellProperties.

Variable float_of_string : string -> option float.
Variable int_of_string : string -> option Z.
Variable strip : string -> string.

Lemma read_only_prompt_number (prompt : string) (fuel : nat) :
  read_only (prompt_number float_of_string prompt fuel).
Proof.
  induction fuel as [|fuel IH]; cbn [prompt_number]; read_only_steps.
Qed.

Lemma read_only_prompt_operation (fuel : nat) :
  read_only (prompt_operation strip fuel).
Proof.
  induction fuel as [|fuel IH]; cbn [prompt_operation]; read_only_steps.
Qed.

Lemma read_only_get_user_inputs : read_only (get_user_inputs float_of_string strip).
Proof.
  pose proof read_only_prompt_number. pose proof read_only_prompt_operation.
  unfold get_user_inputs, lines_left. read_only_steps.
Qed.

Lemma read_only_get_menu_choice : read_only (get_menu_choice strip).
Proof. unfold get_menu_choice. read_only_steps. Qed.

Lemma read_only_view_specific_day : read_only (view_specific_day int_of_string).
Proof.
  pose proof read_only_display_daily_history.
  unfold view_specific_day. read_only_steps.
Qed.

Lemma read_only_dispatch (choice : string) :
  choice <> "1" -> read_only (dispatch float_of_string int_of_string strip choice).
Proof.
  intros Hc. unfold dispatch.
  destruct (String.eqb_spec choice "1") as [->|_]; [congruence|].
  pose proof read_only_display_daily_history.
  pose proof read_only_display_all_statistics.
  pose proof read_only_view_specific_day.
  read_only_steps.
Qed.

End ShellProperties.

(** ** The shell: rejected divisions and views *)

Section ShellClaims.

Variable float_of_string : string -> option float.
Variable int_of_string : string -> option Z.
Variable strip : string -> string.

(** C3.  When the inputs read for a calculation are the operator [/] and a
    second operand equal to zero, [validate_inputs] returns [False] after
    printing the error, the turn ends there and returns normally (the
    evaluator, which would raise on these operands, is not called), and the
    history and the statistics are those from before the attempt. *)
Theorem zero_divisor_rejected (w w1 : world) (num1 num2 : float) :
  get_user_inputs float_of_string strip w = (inr (num1, num2, "/"), w1) ->
  PyFloat.eq num2 PyFloat.zero = true ->
  let shown := set_stdout (stdout w1 ++ [Print [Str "Error: Division by zero is not allowed!"]]) w1 in
  validate_inputs num1 num2 "/" w1 = (inr false, shown) /\
  dispatch float_of_string int_of_string strip "1" w = (inr Continue, shown) /\
  fst (execute_operation num1 num2 "/" shown) = inl ZeroDivisionError /\
  calculation_history shown = calculation_history w /\
  daily_stats shown = daily_stats w.
Proof.
  intros Hin Hz. cbv zeta.
  assert (Hv : validate_inputs num1 num2 "/" w1 =
               (inr false, set_stdout (stdout w1 ++ [Print [Str "Error: Division by zero is not allowed!"]]) w1)).
  { unfold validate_inputs. simpl. rewrite Hz. reflexivity. }
  split; [exact Hv|]. split; [|split].
  - unfold dispatch. rewrite String.eqb_refl, bind_run, Hin.
    unfold calculate. rewrite bind_run, Hv. reflexivity.
  - unfold execute_operation, truediv. simpl. rewrite Hz. reflexivity.
  - pose proof (read_only_get_user_inputs float_of_string strip w) as [Hh Hs].
    rewrite Hin in Hh, Hs. exact (conj Hh Hs).
Qed.

(** C9.  A turn of the menu loop whose choice is not [1] (the views 2 to 5,
    the exit, a rejected choice) leaves the history and the statistics as
    they were, whether it returns or raises. *)
Theorem views_leave_store (w w1 : world) (choice : string) :
  get_menu_choice strip w = (inr choice, w1) ->
  choice <> "1" ->
  calculation_history (snd (main_iteration float_of_string int_of_string strip w))
  = calculation_history w /\
  daily_stats (snd (main_iteration float_of_string int_of_string strip w))
  = daily_stats w.
Proof.
  intros Hm Hc. unfold main_iteration. rewrite bind_run, Hm.
  pose proof (read_only_get_menu_choice strip w) as H1. rewrite Hm in H1.
  pose proof (read_only_dispatch float_of_string int_of_string strip choice Hc w1) as H2.
  exact (same_store_trans _ _ _ H1 H2).
Qed.

End ShellClaims.

Lemma zero_divisor_rejected_witness :
  let w := typing_world ["10"; "0"; "/"] in
  let w1 := snd (get_user_inputs demo_float demo_strip w) in
  let shown := set_stdout (stdout w1 ++ [Print [Str "Error: Division by zero is not allowed!"]]) w1 in
  get_user_inputs demo_float demo_strip w = (inr (PyFloat.of_int 10, PyFloat.zero, "/"), w1) /\
  PyFloat.eq PyFloat.zero PyFloat.zero = true /\
  dispatch demo_float demo_int demo_strip "1" w = (inr Continue, shown) /\
  calculation_history shown = calculation_history w /\
  daily_stats shown = daily_stats w.
Proof.
  cbv zeta.
  split; [vm_compute; reflexivity|]. split; [reflexivity|].
  destruct (zero_divisor_rejected demo_float demo_int demo_strip
              (typing_world ["10"; "0"; "/"])
              (snd (get_user_inputs demo_float demo_strip (typing_world ["10"; "0"; "/"])))
              (PyFloat.of_int 10) PyFloat.zero)
    as (_ & Hd & _ & Hh & Hs); [vm_compute; reflexivity|reflexivity|].
  split; [exact Hd|]. split; [exact Hh|exact Hs].
Defined.

Lemma views_leave_store_witness :
  let w := typing_world ["4"] in
  get_menu_choice demo_strip w = (inr "4", snd (get_menu_choice demo_strip w)) /\
  "4" <> "1" /\
  calculation_history (snd (main_iteration demo_float demo_int demo_strip w))
  = calculation_history w /\
  daily_stats (snd (main_iteration demo_float demo_int demo_strip w))
  = daily_stats w.
Proof.
  cbv zeta. split; [vm_compute; reflexivity|]. split; [discriminate|].
  apply (views_leave_store demo_float demo_int demo_strip (typing_world ["4"])
           (snd (get_menu_choice demo_strip (typing_world ["4"]))) "4");
    [vm_compute; reflexivity|discriminate].
Defined.

(** Choice 1, by contrast, does change the store. *)
Example calculation_changes_store :
  let w := set_stdin ["1"; "10"; "2"; "/"] (demo_world 5) in
  fst (main_iteration demo_float demo_int demo_strip w) = inr Continue /\
  map Calc.result (records_of (snd (main_iteration demo_float demo_int demo_strip w)) 5)
  = [PyFloat.of_int 5].
Proof. vm_compute. split; reflexivity. Qed.

(** ** What the views write *)

Lemma set_stdout_nil (w : world) : set_stdout (stdout w ++ []) w = w.
Proof. destruct w. unfold set_stdout. simpl. rewrite app_nil_r. reflexivity. Qed.

Lemma emits_mret (w : world) : emits (mret tt) w [].
Proof. unfold emits. rewrite mret_run, set_stdout_nil. reflexivity. Qed.

Lemma emits_print (line : list piece) (w : world) : emits (print line) w [Print line].
Proof. reflexivity. Qed.

Lemma emits_same_store (m : M unit) (w : world) (out : list event) :
  emits m w out -> same_store w (set_stdout (stdout w ++ out) w).
Proof. intros _. split; reflexivity. Qed.

Lemma emits_seq (m1 m2 : M unit) (w : world) (o1 o2 : list event) :
  emits m1 w o1 ->
  emits m2 (set_stdout (stdout w ++ o1) w) o2 ->
  emits (m1;; m2) w (o1 ++ o2).
Proof.
  unfold emits. intros H1 H2. rewrite bind_run, H1, H2. world_fields.
  rewrite app_assoc. reflexivity.
Qed.

Lemma emits_for_each {A : Type} (l : list A) (body : A -> M unit)
    (g : A -> list event) (w : world) :
  (forall x w', In x l -> same_store w w' -> emits (body x) w' (g x)) ->
  emits (for_each l body) w (flat_map g l).
Proof.
  revert w. induction l as [|x l IH]; intros w Hb; cbn [for_each flat_map].
  - apply emits_mret.
  - apply emits_seq.
    + apply Hb; [left; reflexivity|apply same_store_refl].
    + apply IH. intros x' w' Hx' Hs. apply Hb; [right; assumption|].
      eapply same_store_trans; [|exact Hs]. split; reflexivity.
Qed.

Ltac emits_lines :=
  repeat (apply (emits_seq _ _ _ [_] _); [apply emits_print|]);
  try apply emits_print.

Lemma emits_print_stats_lines (stats : Stats.t) (w : world) :
  emits (print_stats_lines stats) w (stats_lines stats).
Proof. unfold print_stats_lines, stats_lines. emits_lines. Qed.

(** ** The sorted keys of a dictionary *)

Lemma lt_of_le_NoDup (l : list Z) :
  StronglySorted Z.le l -> NoDup l -> StronglySorted Z.lt l.
Proof.
  induction 1 as [|a l Hs IH Hall]; intros Hnd; constructor.
  - apply IH. eapply NoDup_cons_1_2; eassumption.
  - apply NoDup_cons_1_1 in Hnd. rewrite Forall_forall in *. intros x Hx.
    specialize (Hall x Hx). assert (a <> x) by (intros ->; contradiction). lia.
Qed.

Lemma sorted_keys_elem {V : Type} (m : gmap Z V) (d : Z) :
  In d (sorted_keys m) <-> is_Some (m !! d).
Proof.
  unfold sorted_keys. rewrite <- list_elem_of_In, merge_sort_Permutation.
  rewrite list_elem_of_fmap. split.
  - intros ([k v] & -> & Hkv). apply elem_of_map_to_list in Hkv. simpl. eauto.
  - intros [v Hv]. exists (d, v). split; [reflexivity|]. apply elem_of_map_to_list. exact Hv.
Qed.

Lemma sorted_keys_ascending {V : Type} (m : gmap Z V) :
  StronglySorted Z.lt (sorted_keys m).
Proof.
  apply lt_of_le_NoDup.
  - apply StronglySorted_merge_sort; apply _.
  - unfold sorted_keys. rewrite merge_sort_Permutation. apply NoDup_fst_map_to_list.
Qed.

Lemma sorted_keys_empty (V : Type) : sorted_keys (∅ : gmap Z V) = [].
Proof. unfold sorted_keys. rewrite map_to_list_empty. reflexivity. Qed.

Lemma flat_map_singleton {A B : Type} (f : A -> B) (l : list A) :
  flat_map (fun x => [f x]) l = map f l.
Proof. induction l as [|x l IH]; simpl; [|rewrite IH]; reflexivity. Qed.

Lemma days_shown_app (o1 o2 : list event) :
  days_shown (o1 ++ o2) = days_shown o1 ++ days_shown o2.
Proof. apply omap_app. Qed.

Lemma days_shown_calc_lines (l : list Calc.t) :
  days_shown (map (fun calc => Print (Str "  " :: calc_pieces calc)) l) = [].
Proof. induction l as [|c l IH]; [reflexivity|exact IH]. Qed.

Lemma days_shown_history_block (w : world) (d : Z) :
  days_shown (history_block w d) = [d].
Proof.
  unfold history_block. change (days_shown (?e :: ?l)) with (d :: days_shown l).
  rewrite days_shown_calc_lines. reflexivity.
Qed.

Lemma days_shown_stats_block (w : world) (d : Z) : days_shown (stats_block w d) = [d].
Proof. reflexivity. Qed.

Lemma days_shown_flat_map (g : Z -> list event) (l : list Z) :
  (forall d, days_shown (g d) = [d]) -> days_shown (flat_map g l) = l.
Proof.
  intros Hg. induction l as [|d l IH]; [reflexivity|].
  cbn [flat_map]. rewrite days_shown_app, Hg, IH. reflexivity.
Qed.

Lemma history_getitem_same (w w' : world) (d : Z) :
  same_store w w' -> In d (sorted_keys (calculation_history w)) ->
  history_getitem d w' = (inr (records_of w d), w').
Proof.
  intros [Hh _] Hd. apply sorted_keys_elem in Hd. destruct Hd as [l Hl].
  unfold history_getitem, records_of. rewrite Hh, Hl. reflexivity.
Qed.

Lemma stats_getitem_same (w w' : world) (d : Z) :
  same_store w w' -> In d (sorted_keys (daily_stats w)) ->
  stats_getitem d w' = (inr (stats_before w d), w').
Proof.
  intros [_ Hs] Hd. apply sorted_keys_elem in Hd. destruct Hd as [s Hl].
  unfold stats_getitem, stats_before. rewrite Hs, Hl. reflexivity.
Qed.

(** The history view announces the keys of [calculation_history], sorted. *)
Lemma display_all_history_emits (w : world) :
  exists out,
    emits (display_daily_history None) w out /\
    days_shown out = sorted_keys (calculation_history w).
Proof.
  unfold display_daily_history, emits. rewrite bind_run, gets_run.
  destruct (decide (calculation_history w = ∅)) as [E|E].
  - rewrite bool_decide_eq_false_2 by (intros H; exact (H E)).
    eexists. split; [apply emits_print|]. rewrite E. rewrite (sorted_keys_empty (list Calc.t)). reflexivity.
  - rewrite bool_decide_eq_true_2 by assumption.
    exists ([Print [Str (nl +:+ "=== All Calculation History ===")]]
            ++ flat_map (history_block w) (sorted_keys (calculation_history w))).
    split.
    + apply emits_seq; [apply emits_print|]. unfold emits.
      rewrite bind_run, gets_run. world_fields.
      apply emits_for_each. intros d w' Hd Hs.
      assert (Hs' : same_store w w').
      { eapply same_store_trans; [|exact Hs]. split; reflexivity. }
      unfold emits. rewrite bind_run, (history_getitem_same w w' d Hs' Hd).
      unfold history_block. apply (emits_seq _ _ _ [_] _); [apply emits_print|].
      rewrite <- flat_map_singleton. apply emits_for_each.
      intros calc w'' _ _. apply emits_print.
    + rewrite days_shown_app. simpl (days_shown [_]).
      apply days_shown_flat_map. apply days_shown_history_block.
Qed.

(** The statistics view announces the keys of [daily_stats], sorted. *)
Lemma display_all_statistics_emits (w : world) :
  exists out,
    emits display_all_statistics w out /\
    days_shown out = sorted_keys (daily_stats w).
Proof.
  unfold display_all_statistics, emits. rewrite bind_run, gets_run.
  destruct (decide (daily_stats w = ∅)) as [E|E].
  - rewrite bool_decide_eq_false_2 by (intros H; exact (H E)).
    eexists. split; [apply emits_print|]. rewrite E. rewrite (sorted_keys_empty Stats.t). reflexivity.
  - rewrite bool_decide_eq_true_2 by assumption.
    exists ([Print [Str (nl +:+ "=== Daily Statistics ===")]]
            ++ flat_map (stats_block w) (sorted_keys (daily_stats w))).
    split.
    + apply emits_seq; [apply emits_print|]. unfold emits.
      rewrite bind_run, gets_run. world_fields.
      apply emits_for_each. intros d w' Hd Hs.
      assert (Hs' : same_store w w').
      { eapply same_store_trans; [|exact Hs]. split; reflexivity. }
      unfold emits. rewrite bind_run, (stats_getitem_same w w' d Hs' Hd).
      unfold stats_block. apply (emits_seq _ _ _ [_] _); [apply emits_print|].
      apply emits_print_stats_lines.
    + rewrite days_shown_app. simpl (days_shown [_]).
      apply days_shown_flat_map. apply days_shown_stats_block.
Qed.

Lemma has_records_history (w : world) (d : Z) :
  reachable w -> (has_records w d <-> is_Some (calculation_history w !! d)).
Proof.
  intros Hr. pose proof (reachable_inv w Hr d) as Hinv. unfold has_records, records_of.
  destruct (calculation_history w !! d) as [l|], (daily_stats w !! d) as [s|];
    try contradiction; simpl.
  - destruct Hinv as [Hne _]. split; eauto.
  - split; [congruence|intros [? ?]; discriminate].
Qed.

Lemma has_records_stats (w : world) (d : Z) :
  reachable w -> (has_records w d <-> is_Some (daily_stats w !! d)).
Proof.
  intros Hr. rewrite has_records_history by assumption.
  pose proof (reachable_inv w Hr d) as Hinv.
  destruct (calculation_history w !! d) as [l|], (daily_stats w !! d) as [s|];
    try contradiction; split; eauto; intros [? ?]; discriminate.
Qed.

(** C6.  In every state of the store, the history view and the statistics
    view return, and the days each of them lists are exactly the days with at
    least one record, in strictly ascending order. *)
Theorem views_list_days_ascending (w : world) :
  reachable w ->
  exists out_history out_stats,
    emits (display_daily_history None) w out_history /\
    emits display_all_statistics w out_stats /\
    StronglySorted Z.lt (days_shown out_history) /\
    StronglySorted Z.lt (days_shown out_stats) /\
    forall d, (In d (days_shown out_history) <-> has_records w d) /\
              (In d (days_shown out_stats) <-> has_records w d).
Proof.
  intros Hr.
  destruct (display_all_history_emits w) as (oh & Hh & Eh).
  destruct (display_all_statistics_emits w) as (os & Hs & Es).
  exists oh, os. rewrite Eh, Es.
  split; [assumption|]. split; [assumption|].
  split; [apply sorted_keys_ascending|]. split; [apply sorted_keys_ascending|].
  intros d. rewrite !sorted_keys_elem.
  rewrite (has_records_history w d Hr) at 1. rewrite (has_records_stats w d Hr).
  tauto.
Qed.

Lemma views_list_days_ascending_witness :
  reachable eight_world /\
  exists out_history out_stats,
    emits (display_daily_history None) eight_world out_history /\
    emits display_all_statistics eight_world out_stats /\
    StronglySorted Z.lt (days_shown out_history) /\
    StronglySorted Z.lt (days_shown out_stats) /\
    forall d, (In d (days_shown out_history) <-> has_records eight_world d) /\
              (In d (days_shown out_stats) <-> has_records eight_world d).
Proof.
  split; [exact reachable_eight_world|].
  apply (views_list_days_ascending eight_world). exact reachable_eight_world.
Defined.

(** C7.  In every state of the store, looking up a day without records
    returns after printing [No calculations found for day <day>], and raises
    nothing. *)
Theorem lookup_day_without_records (w : world) (d : Z) :
  reachable w ->
  records_of w d = [] ->
  display_daily_history (Some d) w =
  (inr tt, set_stdout (stdout w ++ [Print [Str "No calculations found for day "; Int d]]) w).
Proof.
  intros Hr Hrec. unfold display_daily_history.
  rewrite bind_run, gets_run.
  rewrite bool_decide_eq_false_2; [reflexivity|].
  intros Hsome. apply (has_records_history w d Hr) in Hsome. exact (Hsome Hrec).
Qed.

Lemma lookup_day_without_records_witness :
  reachable eight_world /\
  records_of eight_world 7 = [] /\
  display_daily_history (Some 7) eight_world =
  (inr tt, set_stdout (stdout eight_world
                       ++ [Print [Str "No calculations found for day "; Int 7]]) eight_world).
Proof.
  split; [exact reachable_eight_world|]. split; [vm_compute; reflexivity|].
  apply (lookup_day_without_records eight_world 7);
    [exact reachable_eight_world|vm_compute; reflexivity].
Defined.

Example view_all_history_of_eight_world :
  days_shown (stdout (snd (display_daily_history None eight_world))) = [5].
Proof. vm_compute. reflexivity. Qed.

(** * Further properties of the shell *)

(** ** What every step of the program preserves

    A relation between worlds that is reflexive and transitive and that
    printing, reading a line, reading the clock and [store_calculation]
    respect is respected by every function of the calculator. *)

Section Preserved.

Variable R : world -> world -> Prop.
Hypothesis R_refl : forall w, R w w.
Hypothesis R_trans : forall w1 w2 w3, R w1 w2 -> R w2 w3 -> R w1 w3.
Hypothesis R_write : forall w e, R w (set_stdout (stdout w ++ [e]) w).
Hypothesis R_read : forall w s rest, stdin w = s :: rest -> R w (set_stdin rest w).
Hypothesis R_clock : forall w, R w (set_clock_reads (S (clock_reads w)) w).
Hypothesis R_store : forall a b op r w, R w (snd (store_calculation a b op r w)).

Lemma keeps_mret {A : Type} (x : A) : keeps R (mret x : M A).
Proof. intros w. apply R_refl. Qed.

Lemma keeps_raise {A : Type} (e : exn) : keeps R (raise e : M A).
Proof. intros w. apply R_refl. Qed.

Lemma keeps_gets {A : Type} (f : world -> A) : keeps R (gets f).
Proof. intros w. apply R_refl. Qed.

Lemma keeps_bind {A B : Type} (m : M A) (f : A -> M B) :
  keeps R m -> (forall x, keeps R (f x)) -> keeps R (m ≫= f).
Proof.
  intros Hm Hf w. rewrite bind_run. specialize (Hm w).
  destruct (m w) as [[e|x] w1]; [exact Hm|].
  eapply R_trans; [exact Hm|apply Hf].
Qed.

Lemma keeps_print (line : list piece) : keeps R (print line).
Proof. intros w. apply R_write. Qed.

Lemma keeps_input (prompt : string) : keeps R (input prompt).
Proof.
  intros w. unfold input. cbv zeta. world_fields.
  destruct (stdin w) as [|s rest] eqn:E; cbn [snd].
  - apply R_write.
  - eapply R_trans; [apply (R_write w (Prompt prompt))|].
    apply (R_read _ s rest). exact E.
Qed.

Lemma keeps_datetime_now : keeps R datetime_now.
Proof. intros w. apply R_clock. Qed.

Lemma keeps_history_getitem (d : Z) : keeps R (history_getitem d).
Proof.
  intros w. unfold history_getitem. destruct (calculation_history w !! d); apply R_refl.
Qed.

Lemma keeps_stats_getitem (d : Z) : keeps R (stats_getitem d).
Proof.
  intros w. unfold stats_getitem. destruct (daily_stats w !! d); apply R_refl.
Qed.

Lemma keeps_for_each {A : Type} (l : list A) (body : A -> M unit) :
  (forall x, keeps R (body x)) -> keeps R (for_each l body).
Proof.
  intros Hb. induction l as [|x l IH]; cbn [for_each].
  - apply keeps_mret.
  - apply keeps_bind; auto.
Qed.

Lemma keeps_except {A : Type} (body handler : M A) :
  keeps R body -> keeps R handler -> keeps R (except_ValueError body handler).
Proof.
  intros Hb Hh w. unfold except_ValueError. specialize (Hb w).
  destruct (body w) as [[[msg| | |]|x] w1]; try exact Hb.
  eapply R_trans; [exact Hb|apply Hh].
Qed.

Lemma keeps_store_calculation (a b : float) (op : string) (r : float) :
  keeps R (store_calculation a b op r).
Proof. intros w. apply R_store. Qed.

Ltac keeps_steps :=
  repeat match goal with
  | |- keeps _ (mret _) => apply keeps_mret
  | |- keeps _ (raise _) => apply keeps_raise
  | |- keeps _ (gets _) => apply keeps_gets
  | |- keeps _ lines_left => apply keeps_gets
  | |- keeps _ (print _) => apply keeps_print
  | |- keeps _ (input _) => apply keeps_input
  | |- keeps _ datetime_now => apply keeps_datetime_now
  | |- keeps _ (history_getitem _) => apply keeps_history_getitem
  | |- keeps _ (stats_getitem _) => apply keeps_stats_getitem
  | |- keeps _ (store_calculation _ _ _ _) => apply keeps_store_calculation
  | |- keeps _ (_ ≫= _) => apply keeps_bind; [|intros ?]
  | |- keeps _ (for_each _ _) => apply keeps_for_each; intros ?
  | |- keeps _ (except_ValueError _ _) => apply keeps_except
  | |- keeps _ (if ?b then _ else _) => destruct b
  | |- keeps _ (match ?x with _ => _ end) => destruct x
  | H : context [keeps] |- keeps _ _ => solve [apply H]
  end.

Lemma keeps_validate_inputs (num1 num2 : float) (operation : string) :
  keeps R (validate_inputs num1 num2 operation).
Proof. unfold validate_inputs. keeps_steps. Qed.

Lemma keeps_execute_operation (num1 num2 : float) (operation : string) :
  keeps R (execute_operation num1 num2 operation).
Proof. unfold execute_operation, truediv. keeps_steps. Qed.

Lemma keeps_display_result (num1 num2 : float) (operation : string) (result : float) :
  keeps R (display_result num1 num2 operation result).
Proof. unfold display_result. keeps_steps. Qed.

Lemma keeps_print_stats_lines (stats : Stats.t) : keeps R (print_stats_lines stats).
Proof. unfold print_stats_lines. keeps_steps. Qed.

Lemma keeps_display_daily_history (d : option Z) : keeps R (display_daily_history d).
Proof.
  pose proof keeps_print_stats_lines.
  unfold display_daily_history. keeps_steps.
Qed.

Lemma keeps_display_all_statistics : keeps R display_all_statistics.
Proof.
  pose proof keeps_print_stats_lines.
  unfold display_all_statistics. keeps_steps.
Qed.

Lemma keeps_calculate (num1 num2 : float) (operation : string) :
  keeps R (calculate num1 num2 operation).
Proof.
  pose proof keeps_validate_inputs. pose proof keeps_execute_operation.
  pose proof keeps_display_result.
  unfold calculate. keeps_steps.
Qed.

Variable float_of_string : string -> option float.
Variable int_of_string : string -> option Z.
Variable strip : string -> string.
Variable exn_text : exn -> string.

Lemma keeps_prompt_number (prompt : string) (fuel : nat) :
  keeps R (prompt_number float_of_string prompt fuel).
Proof. induction fuel as [|fuel IH]; cbn [prompt_number]; keeps_steps. Qed.

Lemma keeps_prompt_operation (fuel : nat) : keeps R (prompt_operation strip fuel).
Proof. induction fuel as [|fuel IH]; cbn [prompt_operation]; keeps_steps. Qed.

Lemma keeps_get_user_inputs : keeps R (get_user_inputs float_of_string strip).
Proof.
  pose proof keeps_prompt_number. pose proof keeps_prompt_operation.
  unfold get_user_inputs. keeps_steps.
Qed.

Lemma keeps_get_menu_choice : keeps R (get_menu_choice strip).
Proof. unfold get_menu_choice. keeps_steps. Qed.

Lemma keeps_view_specific_day : keeps R (view_specific_day int_of_string).
Proof.
  pose proof keeps_display_daily_history.
  unfold view_specific_day. keeps_steps.
Qed.

Lemma keeps_dispatch (choice : string) :
  keeps R (dispatch float_of_string int_of_string strip choice).
Proof.
  pose proof keeps_display_daily_history. pose proof keeps_display_all_statistics.
  pose proof keeps_view_specific_day. pose proof keeps_get_user_inputs.
  pose proof keeps_calculate.
  unfold dispatch. keeps_steps.
Qed.

Lemma keeps_main_iteration :
  keeps R (main_iteration float_of_string int_of_string strip).
Proof.
  pose proof keeps_get_menu_choice. pose proof keeps_dispatch.
  unfold main_iteration. keeps_steps.
Qed.

Lemma keeps_main_loop (fuel : nat) :
  keeps R (main_loop float_of_string int_of_string strip fuel).
Proof.
  pose proof keeps_main_iteration.
  induction fuel as [|fuel IH]; cbn [main_loop]; keeps_steps.
Qed.

Lemma keeps_main : keeps R (main float_of_string int_of_string strip exn_text).
Proof.
  intros w. unfold main.
  pose proof (keeps_bind lines_left (main_loop float_of_string int_of_string strip)
                (keeps_gets _) keeps_main_loop w) as H.
  destruct ((lines_left ≫= main_loop float_of_string int_of_string strip) w)
    as [[e|[]] w1]; [|exact H].
  eapply R_trans; [exact H|apply keeps_print].
Qed.

End Preserved.

(** ** Input, output, history and store states along a run *)

Lemma store_calculation_world (a b : float) (op : string) (r : float) (w : world) :
  exists s,
    snd (store_calculation a b op r w) =
    World (<[current_day w := records_of w (current_day w) ++ [new_record w a b op r]]>
             (calculation_history w))
          (<[current_day w := s]> (daily_stats w))
          (clock w) (S (S (clock_reads w))) (stdin w) (stdout w).
Proof.
  rewrite store_calculation_unfold.
  match goal with |- context [update_daily_stats ?d ?x ?w0] =>
    destruct (update_daily_stats_world d x w0) as (s & -> & _)
  end.
  exists s. reflexivity.
Qed.

Lemma input_consumed_store (a b : float) (op : string) (r : float) (w : world) :
  input_consumed w (snd (store_calculation a b op r w)).
Proof.
  destruct (store_calculation_world a b op r w) as [s ->]. unfold input_consumed.
  reflexivity.
Qed.

Lemma output_appended_store (a b : float) (op : string) (r : float) (w : world) :
  output_appended w (snd (store_calculation a b op r w)).
Proof.
  destruct (store_calculation_world a b op r w) as [s ->]. unfold output_appended.
  reflexivity.
Qed.

Lemma history_extended_store (a b : float) (op : string) (r : float) (w : world) :
  history_extended w (snd (store_calculation a b op r w)).
Proof.
  destruct (store_calculation_world a b op r w) as [s ->]. intros d.
  unfold records_of at 2. world_fields.
  destruct (decide (current_day w = d)) as [<-|Hne].
  - rewrite lookup_insert_eq. simpl. apply prefix_app_r. reflexivity.
  - rewrite lookup_insert_ne by assumption. reflexivity.
Qed.


Lemma history_extended_refl (w : world) : history_extended w w.
Proof. intros d. reflexivity. Qed.

Lemma history_extended_trans (w1 w2 w3 : world) :
  history_extended w1 w2 -> history_extended w2 w3 -> history_extended w1 w3.
Proof. intros H1 H2 d. etransitivity; [apply H1|apply H2]. Qed.

Lemma history_extended_io (w w' : world) :
  calculation_history w' = calculation_history w -> history_extended w w'.
Proof. intros Hh d. unfold records_of. rewrite Hh. reflexivity. Qed.


Section WholeProgram.

Variable float_of_string : string -> option float.
Variable int_of_string : string -> option Z.
Variable strip : string -> string.
Variable exn_text : exn -> string.

(** X1.  Neither a turn of the menu loop nor the whole of [main] removes,
    reorders or changes a stored record: the list of every day before the
    run is a prefix of its list after the run, also when the run raises. *)
Theorem history_only_grows (w : world) :
  history_extended w (snd (main_iteration float_of_string int_of_string strip w)) /\
  history_extended w (snd (main float_of_string int_of_string strip exn_text w)).
Proof.
  split.
  - apply (keeps_main_iteration history_extended); intros;
      first [apply history_extended_refl | eapply history_extended_trans; eassumption
            | apply history_extended_store | apply history_extended_io; reflexivity].
  - apply (keeps_main history_extended); intros;
      first [apply history_extended_refl | eapply history_extended_trans; eassumption
            | apply history_extended_store | apply history_extended_io; reflexivity].
Qed.

(** X2.  [main] and each of its turns read the input from the front and never
    put a line back, and only append to what is on the terminal. *)
Theorem input_read_in_order_output_appended (w : world) :
  let w1 := snd (main_iteration float_of_string int_of_string strip w) in
  let w2 := snd (main float_of_string int_of_string strip exn_text w) in
  suffix (stdin w1) (stdin w) /\ prefix (stdout w) (stdout w1) /\
  suffix (stdin w2) (stdin w) /\ prefix (stdout w) (stdout w2).
Proof.
  cbv zeta.
  repeat split.
  - apply (keeps_main_iteration input_consumed); unfold input_consumed; intros; world_fields;
      first [reflexivity | etransitivity; eassumption | apply input_consumed_store
            | match goal with H : stdin _ = _ :: _ |- _ => rewrite H; apply suffix_cons_r; reflexivity end].
  - apply (keeps_main_iteration output_appended); unfold output_appended; intros; world_fields;
      first [reflexivity | etransitivity; eassumption | apply output_appended_store
            | apply prefix_app_r; reflexivity].
  - apply (keeps_main input_consumed); unfold input_consumed; intros; world_fields;
      first [reflexivity | etransitivity; eassumption | apply input_consumed_store
            | match goal with H : stdin _ = _ :: _ |- _ => rewrite H; apply suffix_cons_r; reflexivity end].
  - apply (keeps_main output_appended); unfold output_appended; intros; world_fields;
      first [reflexivity | etransitivity; eassumption | apply output_appended_store
            | apply prefix_app_r; reflexivity].
Qed.

End WholeProgram.

(** ** Reading the inputs of a calculation *)

Lemma input_run_cons (prompt s : string) (rest : list string) (w : world) :
  stdin w = s :: rest ->
  input prompt w = (inr s, set_stdin rest (set_stdout (stdout w ++ [Prompt prompt]) w)).
Proof. intros E. unfold input. cbv zeta. world_fields. rewrite E. reflexivity. Qed.

Lemma input_run_nil (prompt : string) (w : world) :
  stdin w = [] ->
  input prompt w = (inl EOFError, set_stdout (stdout w ++ [Prompt prompt]) w).
Proof. intros E. unfold input. cbv zeta. world_fields. rewrite E. reflexivity. Qed.

Section ReadingInputs.

Variable float_of_string : string -> option float.
Variable strip : string -> string.

Lemma prompt_number_accepts (prompt : string) (bad : list string) (good : string)
    (rest : list string) (x : float) (fuel : nat) (w : world) :
  stdin w = bad ++ good :: rest ->
  rejected_numbers float_of_string bad ->
  float_of_string good = Some x ->
  (length bad < fuel)%nat ->
  prompt_number float_of_string prompt fuel w =
  (inr x, set_stdin rest
            (set_stdout (stdout w ++ retry prompt number_error bad ++ [Prompt prompt]) w)).
Proof.
  revert fuel w. induction bad as [|b bad IH]; intros fuel w Hin Hbad Hgood Hfuel;
    (destruct fuel as [|fuel]; [simpl in Hfuel; lia|]); cbn [prompt_number].
  - rewrite bind_run, (input_run_cons prompt good rest) by exact Hin.
    rewrite Hgood. reflexivity.
  - rewrite bind_run, (input_run_cons prompt b (bad ++ good :: rest)) by exact Hin.
    apply Forall_cons in Hbad. destruct Hbad as [Hb Hbad]. rewrite Hb.
    rewrite bind_run, print_run.
    rewrite (IH fuel); [|world_fields; reflexivity|assumption..|simpl in Hfuel; lia].
    world_fields. unfold set_stdin, set_stdout. world_fields.
    cbn [retry flat_map]. rewrite <- !app_assoc. reflexivity.
Qed.

Lemma prompt_number_eof (prompt : string) (bad : list string) (fuel : nat) (w : world) :
  stdin w = bad ->
  rejected_numbers float_of_string bad ->
  (length bad < fuel)%nat ->
  prompt_number float_of_string prompt fuel w =
  (inl EOFError,
   set_stdin [] (set_stdout (stdout w ++ retry prompt number_error bad ++ [Prompt prompt]) w)).
Proof.
  revert fuel w. induction bad as [|b bad IH]; intros fuel w Hin Hbad Hfuel;
    (destruct fuel as [|fuel]; [simpl in Hfuel; lia|]); cbn [prompt_number].
  - rewrite bind_run, input_run_nil by exact Hin.
    destruct w; unfold set_stdin, set_stdout; simpl in *; subst; reflexivity.
  - rewrite bind_run, (input_run_cons prompt b bad) by exact Hin.
    apply Forall_cons in Hbad. destruct Hbad as [Hb Hbad]. rewrite Hb.
    rewrite bind_run, print_run.
    rewrite (IH fuel); [|world_fields; reflexivity|assumption..|simpl in Hfuel; lia].
    world_fields. unfold set_stdin, set_stdout. world_fields.
    cbn [retry flat_map]. rewrite <- !app_assoc. reflexivity.
Qed.

Lemma prompt_operation_accepts (bad : list string) (good : string)
    (rest : list string) (fuel : nat) (w : world) :
  stdin w = bad ++ good :: rest ->
  rejected_operations strip bad ->
  is_operator (operation_map_get (strip good)) = true ->
  (length bad < fuel)%nat ->
  prompt_operation strip fuel w =
  (inr (operation_map_get (strip good)),
   set_stdin rest
     (set_stdout (stdout w ++ retry operation_prompt operation_error bad
                           ++ [Prompt operation_prompt]) w)).
Proof.
  revert fuel w. induction bad as [|b bad IH]; intros fuel w Hin Hbad Hgood Hfuel;
    (destruct fuel as [|fuel]; [simpl in Hfuel; lia|]); cbn [prompt_operation].
  - rewrite bind_run, (input_run_cons _ good rest) by exact Hin.
    cbv zeta. rewrite Hgood. reflexivity.
  - rewrite bind_run, (input_run_cons _ b (bad ++ good :: rest)) by exact Hin.
    apply Forall_cons in Hbad. destruct Hbad as [Hb Hbad]. cbv zeta. rewrite Hb.
    rewrite bind_run, print_run.
    rewrite (IH fuel); [|world_fields; reflexivity|assumption..|simpl in Hfuel; lia].
    world_fields. unfold set_stdin, set_stdout. world_fields.
    cbn [retry flat_map]. rewrite <- !app_assoc. reflexivity.
Qed.


End ReadingInputs.



Lemma set_stdout_twice (o1 o2 : list event) (w : world) :
  set_stdout o2 (set_stdout o1 w) = set_stdout o2 w.
Proof. reflexivity. Qed.

Lemma set_stdin_twice (l1 l2 : list string) (w : world) :
  set_stdin l2 (set_stdin l1 w) = set_stdin l2 w.
Proof. reflexivity. Qed.

Lemma set_stdout_stdin (o : list event) (l : list string) (w : world) :
  set_stdout o (set_stdin l w) = set_stdin l (set_stdout o w).
Proof. reflexivity. Qed.

Ltac world_norm :=
  world_fields;
  repeat first [rewrite set_stdout_twice | rewrite set_stdin_twice | rewrite set_stdout_stdin].

Ltac run_prints := repeat (rewrite bind_run, print_run).

Section InputsOfACalculation.

Variable float_of_string : string -> option float.
Variable strip : string -> string.

(** X3.  [get_user_inputs] skips every line that does not parse as a number
    and every line that is not an operation, answering each with its error
    line and the same prompt again, and returns the first accepted number,
    the second accepted number and the accepted operation; the remaining
    lines stay on the input and the store is not touched. *)
Theorem get_user_inputs_skips_rejected_lines
    (bad1 bad2 bad3 rest : list string) (n1 n2 o : string) (x1 x2 : float) (w : world) :
  stdin w = bad1 ++ n1 :: bad2 ++ n2 :: bad3 ++ o :: rest ->
  rejected_numbers float_of_string bad1 -> float_of_string n1 = Some x1 ->
  rejected_numbers float_of_string bad2 -> float_of_string n2 = Some x2 ->
  rejected_operations strip bad3 -> is_operator (operation_map_get (strip o)) = true ->
  get_user_inputs float_of_string strip w =
  (inr (x1, x2, operation_map_get (strip o)),
   set_stdin rest (set_stdout (stdout w ++ inputs_transcript bad1 bad2 bad3) w)).
Proof.
  intros Hin Hb1 Hn1 Hb2 Hn2 Hb3 Ho. unfold get_user_inputs.
  run_prints. rewrite bind_run. unfold lines_left at 1. rewrite gets_run. world_fields.
  rewrite bind_run.
  erewrite (prompt_number_accepts float_of_string _ bad1 n1
              (bad2 ++ n2 :: bad3 ++ o :: rest) x1);
    [|world_fields; exact Hin|exact Hb1|exact Hn1|rewrite Hin, length_app; lia].
  rewrite bind_run. unfold lines_left at 1. rewrite gets_run. world_fields.
  rewrite bind_run.
  erewrite (prompt_number_accepts float_of_string _ bad2 n2 (bad3 ++ o :: rest) x2);
    [|world_fields; reflexivity|exact Hb2|exact Hn2|rewrite length_app; lia].
  run_prints. rewrite bind_run. unfold lines_left at 1. rewrite gets_run. world_fields.
  rewrite bind_run.
  erewrite (prompt_operation_accepts strip bad3 o rest);
    [|world_fields; reflexivity|exact Hb3|exact Ho|rewrite length_app; lia].
  rewrite mret_run. world_norm. do 3 f_equal.
  unfold inputs_transcript, inputs_banner, operations_menu.
  rewrite <- !app_assoc. reflexivity.
Qed.


End InputsOfACalculation.

Lemma get_user_inputs_skips_rejected_lines_witness :
  let w := typing_world ["ten"; "10"; ""; "two"; "2"; "divide"; "/"; "6"] in
  get_user_inputs demo_float demo_strip w =
  (inr (PyFloat.of_int 10, PyFloat.of_int 2, "/"),
   set_stdin ["6"]
     (set_stdout (stdout w ++ inputs_transcript ["ten"] [""; "two"] ["divide"]) w)).
Proof.
  apply (get_user_inputs_skips_rejected_lines demo_float demo_strip
           ["ten"] [""; "two"] ["divide"] ["6"] "10" "2" "/"
           (PyFloat.of_int 10) (PyFloat.of_int 2));
    try reflexivity; repeat constructor.
Defined.

(** ** The view of one day *)

Lemma emits_gets {A : Type} (g : world -> A) (f : A -> M unit) (w : world)
    (out : list event) :
  emits (f (g w)) w out -> emits (gets g ≫= f) w out.
Proof. unfold emits. intros H. rewrite bind_run, gets_run. exact H. Qed.

Lemma emits_history_getitem (d : Z) (l : list Calc.t) (f : list Calc.t -> M unit)
    (w : world) (out : list event) :
  calculation_history w !! d = Some l ->
  emits (f l) w out -> emits (history_getitem d ≫= f) w out.
Proof.
  unfold emits. intros E H. rewrite bind_run. unfold history_getitem. rewrite E. exact H.
Qed.

Lemma emits_stats_getitem (d : Z) (s : Stats.t) (f : Stats.t -> M unit)
    (w : world) (out : list event) :
  daily_stats w !! d = Some s ->
  emits (f s) w out -> emits (stats_getitem d ≫= f) w out.
Proof.
  unfold emits. intros E H. rewrite bind_run. unfold stats_getitem. rewrite E. exact H.
Qed.

Lemma emits_numbered_lines (l : list Calc.t) (start : Z) (w : world) :
  emits (for_each (enumerate l start)
           (fun '(i, calc) => print ([Int i; Str ". "] ++ calc_pieces calc)))
        w (numbered_lines l start).
Proof.
  unfold numbered_lines. rewrite <- flat_map_singleton.
  apply emits_for_each. intros [i calc] w' _ _. apply emits_print.
Qed.

Lemma display_day_emits (w : world) (d : Z) :
  emits (display_daily_history (Some d)) w (day_view w d).
Proof.
  unfold display_daily_history, day_view. apply emits_gets.
  destruct (calculation_history w !! d) as [l|] eqn:E.
  - rewrite bool_decide_eq_true_2 by eauto.
    apply (emits_seq _ _ _ [_] _); [apply emits_print|].
    apply (emits_history_getitem d l); [exact E|].
    apply emits_seq; [apply emits_numbered_lines|].
    apply emits_gets. world_fields.
    destruct (daily_stats w !! d) as [s|] eqn:Es.
    + rewrite bool_decide_eq_true_2 by eauto.
      apply (emits_stats_getitem d s); [exact Es|].
      apply (emits_seq _ _ _ [_] _); [apply emits_print|].
      apply emits_print_stats_lines.
    + rewrite bool_decide_eq_false_2 by (intros [? ?]; discriminate).
      apply emits_mret.
  - rewrite bool_decide_eq_false_2 by (intros [? ?]; discriminate).
    apply emits_print.
Qed.

Lemma enumerate_indices {A : Type} (l : list A) (start : Z) :
  map fst (enumerate l start) = map (fun k => start + Z.of_nat k) (seq 0 (length l)) /\
  map snd (enumerate l start) = l.
Proof.
  revert start. induction l as [|x l IH]; intros start; [split; reflexivity|].
  cbn [enumerate map length seq]. destruct (IH (start + 1)) as [H1 H2].
  rewrite H1, H2, <- seq_shift, map_map. split; [|reflexivity].
  cbn [fst]. f_equal; [lia|]. apply map_ext. intros k. lia.
Qed.

(** X5.  In every world, also one whose dictionaries are not a state of the
    store, [display_daily_history(day)] returns without raising and writes
    exactly the view of the day: the records in stored order numbered from 1
    and the statistics when the day has them, or the line that nothing was
    found when the day has no key; nothing else changes. *)
Theorem display_day_writes_view (w : world) (d : Z) :
  emits (display_daily_history (Some d)) w (day_view w d) /\
  (forall l, calculation_history w !! d = Some l ->
     map snd (enumerate l 1) = l /\
     map fst (enumerate l 1) = map (fun k => 1 + Z.of_nat k) (seq 0 (length l))).
Proof.
  split; [apply display_day_emits|].
  intros l _. destruct (enumerate_indices l 1) as [H1 H2]. split; assumption.
Qed.


(** ** A calculation from validation to storage *)

Lemma validate_inputs_run (num1 num2 : float) (operation : string) (w : world) :
  validate_inputs num1 num2 operation w =
  if passes_validation num2 operation
  then (inr true, w)
  else (inr false,
        set_stdout (stdout w ++ [Print [Str "Error: Division by zero is not allowed!"]]) w).
Proof.
  unfold validate_inputs, passes_validation.
  destruct (String.eqb operation "/" && PyFloat.eq num2 PyFloat.zero); reflexivity.
Qed.

Lemma execute_operation_returns (num1 num2 : float) (operation : string) (w : world) :
  is_operator operation = true ->
  passes_validation num2 operation = true ->
  exists r, execute_operation num1 num2 operation w = (inr r, w).
Proof.
  unfold is_operator, passes_validation, execute_operation, truediv.
  destruct (String.eqb operation "+"); [eauto|].
  destruct (String.eqb operation "-"); [eauto|].
  destruct (String.eqb operation "*"); [eauto|].
  destruct (String.eqb operation "/"); [|discriminate].
  simpl. destruct (PyFloat.eq num2 PyFloat.zero); [discriminate|eauto].
Qed.

Lemma emits_display_result (num1 num2 : float) (operation : string) (result : float)
    (w : world) :
  emits (display_result num1 num2 operation result) w
        (result_lines num1 num2 operation result).
Proof. unfold display_result, result_lines. emits_lines. Qed.

Lemma calculate_run (num1 num2 : float) (operation : string) (r : float) (w : world) :
  passes_validation num2 operation = true ->
  execute_operation num1 num2 operation w = (inr r, w) ->
  calculate num1 num2 operation w =
  let shown := set_stdout (stdout w ++ result_lines num1 num2 operation r) w in
  match store_calculation num1 num2 operation r shown with
  | (inr _, w') => (inr Continue, w')
  | (inl e, w') => (inl e, w')
  end.
Proof.
  intros Hv He. unfold calculate.
  rewrite bind_run, validate_inputs_run, Hv. cbn [negb].
  rewrite bind_run, He, bind_run, (emits_display_result num1 num2 operation r w).
  rewrite bind_run. cbv zeta.
  destruct (store_calculation _ _ _ _ _) as [[e|[]] w']; reflexivity.
Qed.

(** X6.  On a state of the store, a calculation with one of the four
    operators that passes the validation never raises: the evaluator returns
    a result, the result is displayed, and one record holding the operands,
    the operator and that result is appended to the list of the current day;
    the store is again a state of the store. *)
Theorem calculation_is_displayed_and_recorded
    (num1 num2 : float) (operation : string) (w : world) :
  reachable w ->
  is_operator operation = true ->
  passes_validation num2 operation = true ->
  exists r w',
    execute_operation num1 num2 operation w = (inr r, w) /\
    calculate num1 num2 operation w = (inr Continue, w') /\
    stdout w' = stdout w ++ result_lines num1 num2 operation r /\
    records_of w' (current_day w) =
      records_of w (current_day w) ++ [new_record w num1 num2 operation r] /\
    reachable w'.
Proof.
  intros Hr Hop Hv.
  destruct (execute_operation_returns num1 num2 operation w Hop Hv) as [r He].
  set (shown := set_stdout (stdout w ++ result_lines num1 num2 operation r) w).
  assert (Hs : reachable shown) by (eapply reachable_io; [exact Hr|reflexivity..]).
  destruct (store_calculation_returns num1 num2 operation r shown Hs) as [Hok Hr'].
  destruct (store_calculation_world num1 num2 operation r shown) as [s Hw].
  exists r, (snd (store_calculation num1 num2 operation r shown)).
  split; [exact He|]. split; [|split; [|split]].
  - rewrite (calculate_run _ _ _ r) by assumption. cbv zeta. fold shown.
    destruct (store_calculation num1 num2 operation r shown) as [[e|[]] w'];
      [discriminate|reflexivity].
  - rewrite Hw. reflexivity.
  - rewrite Hw. unfold records_of at 1. world_fields.
    change (current_day shown) with (current_day w).
    rewrite lookup_insert_eq. reflexivity.
  - exact Hr'.
Qed.

Lemma calculation_is_displayed_and_recorded_witness :
  reachable eight_world /\
  exists r w',
    execute_operation (PyFloat.of_int 10) (PyFloat.of_int 2) "/" eight_world
      = (inr r, eight_world) /\
    calculate (PyFloat.of_int 10) (PyFloat.of_int 2) "/" eight_world = (inr Continue, w') /\
    stdout w' = stdout eight_world
                ++ result_lines (PyFloat.of_int 10) (PyFloat.of_int 2) "/" r /\
    records_of w' (current_day eight_world) =
      records_of eight_world (current_day eight_world)
      ++ [new_record eight_world (PyFloat.of_int 10) (PyFloat.of_int 2) "/" r] /\
    reachable w'.
Proof.
  split; [exact reachable_eight_world|].
  apply (calculation_is_displayed_and_recorded (PyFloat.of_int 10) (PyFloat.of_int 2) "/"
           eight_world); [exact reachable_eight_world|vm_compute; reflexivity..].
Defined.

(** ** The turns of the menu loop *)

Lemma emits_run (m : M unit) (w : world) (out : list event) :
  emits m w out -> m w = (inr tt, set_stdout (stdout w ++ out) w).
Proof. intros H. exact H. Qed.




Section Turns.

Variable float_of_string : string -> option float.
Variable int_of_string : string -> option Z.
Variable strip : string -> string.
Variable exn_text : exn -> string.

Lemma get_menu_choice_run (w : world) :
  get_menu_choice strip w =
  match stdin w with
  | s :: rest => (inr (strip s), set_stdin rest (set_stdout (stdout w ++ menu_lines) w))
  | [] => (inl EOFError, set_stdout (stdout w ++ menu_lines) w)
  end.
Proof.
  unfold get_menu_choice. run_prints. rewrite bind_run.
  destruct (stdin w) as [|s rest] eqn:E.
  - rewrite input_run_nil by (world_fields; exact E).
    world_norm. do 2 f_equal. unfold menu_lines. rewrite <- !app_assoc. reflexivity.
  - rewrite (input_run_cons _ s rest) by (world_fields; exact E).
    rewrite mret_run. world_norm. do 3 f_equal. unfold menu_lines.
    rewrite <- !app_assoc. reflexivity.
Qed.

Lemma view_specific_day_run (w : world) :
  view_specific_day int_of_string w =
  match stdin w with
  | s :: rest =>
      (inr tt,
       set_stdin rest
         (set_stdout (stdout w ++ [Prompt "Enter day of month (1-31): "]
                               ++ specific_day_answer int_of_string w s) w))
  | [] => (inl EOFError, set_stdout (stdout w ++ [Prompt "Enter day of month (1-31): "]) w)
  end.
Proof.
  unfold view_specific_day, except_ValueError. rewrite bind_run.
  destruct (stdin w) as [|s rest] eqn:E.
  - rewrite input_run_nil by exact E. reflexivity.
  - rewrite (input_run_cons _ s rest) by exact E. unfold specific_day_answer.
    destruct (int_of_string s) as [d|].
    + destruct ((1 <=? d) && (d <=? 31)).
      * rewrite (emits_run _ _ _ (display_day_emits _ d)). world_norm.
        unfold day_view. world_fields. rewrite <- app_assoc. reflexivity.
      * rewrite print_run. world_norm. rewrite <- app_assoc. reflexivity.
    + rewrite raise_run, print_run. world_norm. rewrite <- app_assoc. reflexivity.
Qed.





(** X8.  Choice 3 prompts for the day and reads one line.  A line that is not
    an integer is answered with [Error: Please enter a valid day number], an
    integer outside 1..31 with [Error: Day must be between 1 and 31], a day
    in range with the view of that day.  In all three cases it returns; with
    no line left it raises [EOFError]. *)
Theorem specific_day_is_checked (w : world) :
  view_specific_day int_of_string w =
  match stdin w with
  | s :: rest =>
      (inr tt,
       set_stdin rest
         (set_stdout (stdout w ++ [Prompt "Enter day of month (1-31): "]
                               ++ specific_day_answer int_of_string w s) w))
  | [] => (inl EOFError, set_stdout (stdout w ++ [Prompt "Enter day of month (1-31): "]) w)
  end.
Proof. exact (view_specific_day_run w). Qed.

End Turns.

(** ** Leaving the loop *)

Lemma never_breaks_continue : never_breaks (mret Continue).
Proof. intros w w'. rewrite mret_run. discriminate. Qed.

Lemma never_breaks_bind {A : Type} (m : M A) (f : A -> M control) :
  (forall x, never_breaks (f x)) -> never_breaks (m ≫= f).
Proof.
  intros Hf w w'. rewrite bind_run. destruct (m w) as [[e|x] w1]; [discriminate|apply Hf].
Qed.

Lemma never_breaks_calculate (num1 num2 : float) (operation : string) :
  never_breaks (calculate num1 num2 operation).
Proof.
  unfold calculate. apply never_breaks_bind. intros valid.
  destruct (negb valid); [apply never_breaks_continue|].
  repeat (apply never_breaks_bind; intros ?). apply never_breaks_continue.
Qed.

Lemma input_consumed_length (w w' : world) :
  input_consumed w w' -> (length (stdin w') <= length (stdin w))%nat.
Proof. unfold input_consumed. intros H. apply suffix_length. exact H. Qed.

Section LeavingTheLoop.

Variable float_of_string : string -> option float.
Variable int_of_string : string -> option Z.
Variable strip : string -> string.
Variable exn_text : exn -> string.

Lemma dispatch_break (choice : string) (w w' : world) :
  dispatch float_of_string int_of_string strip choice w = (inr Break, w') <->
  choice = "6" /\ w' = set_stdout (stdout w ++ [farewell]) w.
Proof.
  split.
  - unfold dispatch.
    destruct (String.eqb choice "1").
    { intros H. exfalso. revert H. apply never_breaks_bind. intros [[a b] op].
      apply never_breaks_calculate. }
    destruct (String.eqb choice "2").
    { intros H. exfalso. revert H. repeat (apply never_breaks_bind; intros ?).
      apply never_breaks_continue. }
    destruct (String.eqb choice "3").
    { intros H. exfalso. revert H. repeat (apply never_breaks_bind; intros ?).
      apply never_breaks_continue. }
    destruct (String.eqb choice "4").
    { intros H. exfalso. revert H. repeat (apply never_breaks_bind; intros ?).
      apply never_breaks_continue. }
    destruct (String.eqb choice "5").
    { intros H. exfalso. revert H. repeat (apply never_breaks_bind; intros ?).
      apply never_breaks_continue. }
    destruct (String.eqb_spec choice "6") as [->|_].
    + rewrite bind_run, print_run, mret_run. intros [= <-]. split; reflexivity.
    + rewrite bind_run, print_run, mret_run. discriminate.
  - intros [-> ->]. reflexivity.
Qed.

Lemma input_consumed_dispatch (choice : string) (w : world) :
  input_consumed w (snd (dispatch float_of_string int_of_string strip choice w)).
Proof.
  apply (keeps_dispatch input_consumed); unfold input_consumed; intros; world_fields;
    first [reflexivity | etransitivity; eassumption | apply input_consumed_store
          | match goal with H : stdin _ = _ :: _ |- _ =>
              rewrite H; apply suffix_cons_r; reflexivity end].
Qed.

Lemma main_iteration_consumes (w w' : world) (c : control) :
  main_iteration float_of_string int_of_string strip w = (inr c, w') ->
  (length (stdin w') < length (stdin w))%nat.
Proof.
  unfold main_iteration. rewrite bind_run, get_menu_choice_run.
  destruct (stdin w) as [|s rest] eqn:E; [discriminate|].
  intros H.
  match type of H with dispatch _ _ _ ?ch ?w0 = _ =>
    pose proof (input_consumed_length _ _ (input_consumed_dispatch ch w0)) as Hl
  end.
  rewrite H in Hl. cbn [snd] in Hl. world_fields. simpl. lia.
Qed.


Lemma main_loop_fuel (n m : nat) (w : world) :
  (length (stdin w) < n)%nat -> (length (stdin w) < m)%nat ->
  main_loop float_of_string int_of_string strip n w =
  main_loop float_of_string int_of_string strip m w.
Proof.
  revert m w. induction n as [|n IH]; intros m w Hn Hm; [lia|].
  destruct m as [|m]; [lia|]. cbn [main_loop]. rewrite !bind_run.
  destruct (main_iteration float_of_string int_of_string strip w) as [[e|c] w1] eqn:E;
    [reflexivity|].
  destruct c; [|reflexivity].
  apply main_iteration_consumes in E. apply IH; lia.
Qed.


(** X9.  A turn asks to leave the loop exactly when the choice is [6], and
    then it has printed the farewell and done nothing else; every other
    choice continues the loop or raises. *)
Theorem loop_left_only_by_exit (choice : string) (w w' : world) :
  dispatch float_of_string int_of_string strip choice w = (inr Break, w') <->
  choice = "6" /\ w' = set_stdout (stdout w ++ [farewell]) w.
Proof. exact (dispatch_break choice w w'). Qed.

(** X10.  The loop of [main] ends: a turn that comes back has read at least
    one line, so the loop makes at most one turn per line of input and one
    more; any larger bound on the number of turns gives the same run. *)
Theorem loop_ends_with_the_input (fuel : nat) (w : world) :
  (length (stdin w) < fuel)%nat ->
  main_loop float_of_string int_of_string strip fuel w =
  main_loop float_of_string int_of_string strip (S (length (stdin w))) w /\
  (forall c w', main_iteration float_of_string int_of_string strip w = (inr c, w') ->
                (length (stdin w') < length (stdin w))%nat).
Proof.
  intros H. split; [apply main_loop_fuel; lia|].
  intros c w' E. eapply main_iteration_consumes. exact E.
Qed.

End LeavingTheLoop.

Lemma loop_ends_with_the_input_witness :
  let w := typing_world ["4"; "6"; "1"] in
  (length (stdin w) < 10)%nat /\
  main_loop demo_float demo_int demo_strip 10 w =
  main_loop demo_float demo_int demo_strip (S (length (stdin w))) w.
Proof.
  cbv zeta. split; [vm_compute; lia|].
  apply (loop_ends_with_the_input demo_float demo_int demo_strip 10
           (typing_world ["4"; "6"; "1"])).
  vm_compute. lia.
Defined.

Example session_with_exit :
  let w := set_stdin ["1"; "10"; "2"; "/"; "4"; "6"] (demo_world 5) in
  let w' := snd (main demo_float demo_int demo_strip (fun _ => "EOF when reading a line") w) in
  last (stdout w') = Some farewell /\ stdin w' = [] /\
  map Calc.result (records_of w' 5) = [PyFloat.of_int 5].
Proof. vm_compute. repeat split. Qed.

(** ** Results of finite operands *)

Lemma shr_nonneg (mrs : shr_record) (e n : Z) :
  0 <= shr_m mrs -> 0 <= shr_m (fst (shr mrs e n)).
Proof.
  intros H. unfold shr. destruct n as [|p|p]; cbn [fst]; try assumption.
  rewrite iter_pos_nat. apply shr_iter_digits. exact H.
Qed.

Lemma shr_fexp_nonneg (m e : Z) (l : location) :
  0 <= m -> 0 <= shr_m (fst (shr_fexp PyFloat.prec PyFloat.emax m e l)).
Proof.
  intros H. unfold shr_fexp. apply shr_nonneg. rewrite shr_record_of_loc_m. exact H.
Qed.

Lemma round_nearest_even_nonneg (m : Z) (l : location) :
  0 <= m -> 0 <= round_nearest_even m l.
Proof.
  intros H. unfold round_nearest_even. destruct l as [|[]]; try destruct (Z.even m); lia.
Qed.

Lemma binary_round_aux_not_nan (s : bool) (m e : Z) (l : location) :
  0 <= m -> not_nan (binary_round_aux PyFloat.prec PyFloat.emax s m e l).
Proof.
  intros Hm. unfold binary_round_aux.
  pose proof (shr_fexp_nonneg m e l Hm) as H1.
  destruct (shr_fexp PyFloat.prec PyFloat.emax m e l) as [mrs' e']. cbn [fst] in H1.
  pose proof (shr_fexp_nonneg _ e' loc_Exact
                (round_nearest_even_nonneg _ (loc_of_shr_record mrs') H1)) as H2.
  destruct (shr_fexp PyFloat.prec PyFloat.emax _ e' loc_Exact) as [mrs'' e''].
  cbn [fst] in H2.
  destruct (shr_m mrs'') as [|q|q]; try lia; [reflexivity|].
  destruct (e'' <=? PyFloat.emax - PyFloat.prec); reflexivity.
Qed.

Lemma binary_normalize_not_nan (m e : Z) (szero : bool) :
  not_nan (binary_normalize PyFloat.prec PyFloat.emax m e szero).
Proof.
  unfold binary_normalize, binary_round. destruct m as [|p|p]; [reflexivity| |].
  - destruct (shl_align p e _) as [mz ez]. apply binary_round_aux_not_nan. lia.
  - destruct (shl_align p e _) as [mz ez]. apply binary_round_aux_not_nan. lia.
Qed.

Lemma add_finite_not_nan (a b : float) :
  is_finite a = true -> is_finite b = true -> not_nan (PyFloat.add a b).
Proof.
  destruct a as [sa|sa| |sa ma ea], b as [sb|sb| |sb mb eb]; try discriminate; intros _ _;
    unfold PyFloat.add, SFadd; try reflexivity.
  - destruct sa, sb; reflexivity.
  - apply binary_normalize_not_nan.
Qed.

Lemma sub_finite_not_nan (a b : float) :
  is_finite a = true -> is_finite b = true -> not_nan (PyFloat.sub a b).
Proof.
  destruct a as [sa|sa| |sa ma ea], b as [sb|sb| |sb mb eb]; try discriminate; intros _ _;
    unfold PyFloat.sub, SFsub; try reflexivity.
  - destruct sa, sb; reflexivity.
  - apply binary_normalize_not_nan.
Qed.

Lemma mul_finite_not_nan (a b : float) :
  is_finite a = true -> is_finite b = true -> not_nan (PyFloat.mul a b).
Proof.
  destruct a as [sa|sa| |sa ma ea], b as [sb|sb| |sb mb eb]; try discriminate; intros _ _;
    unfold PyFloat.mul, SFmul; try reflexivity.
  apply binary_round_aux_not_nan. lia.
Qed.

Lemma div_core_nonneg (m1 : positive) (e1 : Z) (m2 : positive) (e2 : Z) :
  0 <= fst (fst (SFdiv_core_binary PyFloat.prec PyFloat.emax (Z.pos m1) e1 (Z.pos m2) e2)).
Proof.
  unfold SFdiv_core_binary. cbv zeta.
  match goal with |- context [Z.div_eucl ?a ?b] =>
    assert (Ha : 0 <= a);
      [|pose proof (Z.div_pos a b Ha ltac:(lia)) as Hq; unfold Z.div in Hq;
        destruct (Z.div_eucl a b) as [q r]; exact Hq]
  end.
  match goal with |- context [match ?s with Z0 => _ | Zpos _ => _ | Zneg _ => _ end] =>
    destruct s as [|p|p]
  end; try lia.
  apply Z.shiftl_nonneg. lia.
Qed.

Lemma div_finite_not_nan (a b : float) :
  is_finite a = true -> is_finite b = true -> PyFloat.eq b PyFloat.zero = false ->
  not_nan (PyFloat.div a b).
Proof.
  destruct a as [sa|sa| |sa ma ea], b as [sb|sb| |sb mb eb]; try discriminate; intros _ _ Hz;
    unfold PyFloat.div, SFdiv; try reflexivity.
  pose proof (div_core_nonneg ma ea mb eb) as H.
  destruct (SFdiv_core_binary PyFloat.prec PyFloat.emax (Z.pos ma) ea (Z.pos mb) eb)
    as [[mz ez] lz].
  apply binary_round_aux_not_nan. exact H.
Qed.

(** X12.  With finite operands (zeros included), one of the four operators
    and an input that passes the validation, the evaluator returns a number:
    the result may overflow to an infinity but it is never NaN. *)
Theorem finite_operands_give_a_number (num1 num2 : float) (operation : string) (w : world) :
  is_finite num1 = true -> is_finite num2 = true ->
  is_operator operation = true ->
  passes_validation num2 operation = true ->
  exists r, execute_operation num1 num2 operation w = (inr r, w) /\ not_nan r.
Proof.
  intros H1 H2. unfold is_operator, passes_validation, execute_operation, truediv.
  destruct (String.eqb operation "+"); [eauto using add_finite_not_nan|].
  destruct (String.eqb operation "-"); [eauto using sub_finite_not_nan|].
  destruct (String.eqb operation "*"); [eauto using mul_finite_not_nan|].
  destruct (String.eqb operation "/"); [|discriminate].
  simpl. destruct (PyFloat.eq num2 PyFloat.zero) eqn:Hz; [discriminate|].
  eauto using div_finite_not_nan.
Qed.

Lemma finite_operands_give_a_number_witness :
  is_finite (PyFloat.of_int 10) = true /\ is_finite (PyFloat.of_int 2) = true /\
  is_operator "/" = true /\ passes_validation (PyFloat.of_int 2) "/" = true /\
  exists r, execute_operation (PyFloat.of_int 10) (PyFloat.of_int 2) "/" (demo_world 5)
            = (inr r, demo_world 5) /\ not_nan r.
Proof.
  repeat (split; [reflexivity|]).
  apply (finite_operands_give_a_number (PyFloat.of_int 10) (PyFloat.of_int 2) "/"
           (demo_world 5)); reflexivity.
Defined.

(** ** The statistics follow the history *)

Lemma non_nan_all (rs : list float) : Forall not_nan rs -> non_nan rs = rs.
Proof.
  induction 1 as [|r rs Hr _ IH]; [reflexivity|].
  unfold non_nan in *. cbn [List.filter]. unfold not_nan in Hr. rewrite Hr. cbn [negb].
  rewrite IH. reflexivity.
Qed.

(** X13.  In every state of the store, the entry of a day is what its
    recorded results make it: the day has results, the count is their
    number, the sum is [0.0 + r1 + ... + rN] in order, the average is sum by
    count, min and max are the least and greatest results that are not NaN;
    when no recorded result is NaN, min and max are the least and greatest
    recorded results. *)
Theorem stats_follow_history (w : world) (d : Z) (s : Stats.t) :
  reachable w ->
  daily_stats w !! d = Some s ->
  results_of w d <> [] /\
  stats_describe_numbers s (results_of w d) /\
  (Forall not_nan (results_of w d) -> stats_describe s (results_of w d)).
Proof.
  intros Hr Hs. pose proof (reachable_inv w Hr d) as Hinv.
  unfold results_of, records_of. rewrite Hs in Hinv.
  destruct (calculation_history w !! d) as [l|]; [|contradiction].
  destruct Hinv as [Hne ->]. simpl default.
  assert (Hm : map Calc.result l <> []) by (destruct l; [congruence|discriminate]).
  split; [exact Hm|]. pose proof (stats_describe_numbers_of _ Hm) as Hd.
  split; [exact Hd|].
  intros Hall. destruct Hd as (Hcsa & Hmm & _).
  rewrite (non_nan_all _ Hall) in Hmm. destruct (Hmm Hm) as [Hmin Hmax].
  split; [exact Hcsa|]. split; assumption.
Qed.

Lemma stats_follow_history_witness :
  reachable eight_world /\
  daily_stats eight_world !! 5 =
    Some (Stats.Make 1 (PyFloat.of_int 8) (PyFloat.of_int 8) (PyFloat.of_int 8)
            (PyFloat.of_int 8)) /\
  stats_describe_numbers
    (Stats.Make 1 (PyFloat.of_int 8) (PyFloat.of_int 8) (PyFloat.of_int 8) (PyFloat.of_int 8))
    (results_of eight_world 5).
Proof.
  split; [exact reachable_eight_world|]. split; [vm_compute; reflexivity|].
  apply (stats_follow_history eight_world 5);
    [exact reachable_eight_world|vm_compute; reflexivity].
Defined.

(** ** The lines accepted as an operation *)

(** X14.  At the prompt for the operation a stripped line is accepted exactly
    when it is one of [1 2 3 4 + - * /]; the digits stand for the operators
    in that order and an operator stands for itself. *)
Theorem operation_lines_accepted (s : string) :
  (is_operator (operation_map_get s) = true <-> In s accepted_operations) /\
  operation_map_get "1" = "+" /\ operation_map_get "2" = "-" /\
  operation_map_get "3" = "*" /\ operation_map_get "4" = "/" /\
  (is_operator s = true -> operation_map_get s = s).
Proof.
  split; [|repeat split].
  - unfold operation_map_get, accepted_operations.
    destruct (String.eqb_spec s "1") as [->|H1]; [simpl; tauto|].
    destruct (String.eqb_spec s "2") as [->|H2]; [simpl; tauto|].
    destruct (String.eqb_spec s "3") as [->|H3]; [simpl; tauto|].
    destruct (String.eqb_spec s "4") as [->|H4]; [simpl; tauto|].
    rewrite is_operator_cases. simpl. split.
    + intros [E|[E|[E|E]]]; subst; auto 10.
    + intros [E|[E|[E|[E|[E|[E|[E|[E|[]]]]]]]]]; subst; try congruence; auto.
  - intros Hop. apply is_operator_cases in Hop.
    destruct Hop as [E|[E|[E|E]]]; subst; reflexivity.
Qed.

(** ** What a turn does not raise, and when the input is exhausted

    The statements below say what is never raised and what holds when
    [EOFError] is raised or the run returns; they hold of the program
    whatever else may interrupt it. *)




Section Exhausted.

Variable float_of_string : string -> option float.
Variable int_of_string : string -> option Z.
Variable strip : string -> string.








End Exhausted.



Example turn_ends_at_end_of_input :
  fst (main_iteration demo_float demo_int demo_strip (typing_world ["3"])) = inl EOFError.
Proof. vm_compute. reflexivity. Qed.

(** ** When the statistics update raises *)

(** X15.  For an entry whose new count is one that [float] converts (below
    [2^1024 - 2^970] in absolute value), [update_daily_stats] raises no
    [KeyError]: it returns unless the count of the day's entry is [-1], in
    which case the division by the new count [0] raises [ZeroDivisionError];
    either way the day has an entry afterwards whose count is one more than
    before (0 before, for a day without entry), and nothing but [daily_stats]
    has changed. *)
Theorem update_daily_stats_outcome (d : Z) (r : float) (w : world) :
  Z.abs (Stats.count (stats_before w d) + 1) < float_int_limit ->
  (fst (update_daily_stats d r w) = inr tt <-> Stats.count (stats_before w d) <> -1) /\
  (fst (update_daily_stats d r w) = inl ZeroDivisionError <->
   Stats.count (stats_before w d) = -1) /\
  exists s,
    snd (update_daily_stats d r w) = set_daily_stats (<[d := s]> (daily_stats w)) w /\
    Stats.count s = Stats.count (stats_before w d) + 1.
Proof.
  intros _.
  destruct (Z.eq_dec (Stats.count (stats_before w d) + 1) 0) as [Hc|Hc].
  - rewrite update_daily_stats_raises by assumption. cbn [fst snd].
    split; [split; [discriminate|lia]|]. split; [split; [lia|reflexivity]|].
    eexists. split; reflexivity.
  - rewrite update_daily_stats_run by assumption. cbn [fst snd].
    split; [split; [lia|reflexivity]|]. split; [split; [discriminate|lia]|].
    eexists. split; reflexivity.
Qed.

Lemma update_daily_stats_outcome_witness :
  Z.abs (Stats.count (stats_before eight_world 5) + 1) < float_int_limit /\
  fst (update_daily_stats 5 (PyFloat.of_int 16) eight_world) = inr tt /\
  exists s,
    snd (update_daily_stats 5 (PyFloat.of_int 16) eight_world)
    = set_daily_stats (<[5 := s]> (daily_stats eight_world)) eight_world /\
    Stats.count s = Stats.count (stats_before eight_world 5) + 1.
Proof.
  assert (Hb : Z.abs (Stats.count (stats_before eight_world 5) + 1) < float_int_limit)
    by (vm_compute; reflexivity).
  destruct (update_daily_stats_outcome 5 (PyFloat.of_int 16) eight_world Hb)
    as (Hok & _ & Hs).
  split; [exact Hb|]. split; [|exact Hs].
  apply Hok. vm_compute. discriminate.
Defined.
